(** * NinjaTrader trade-history compiler: the ingestion and merge pipeline

    A shallow embedding of [detect_header_row], [read_file] and
    [compile_files] of [app.py], and the properties of the pipeline that
    the specification states.

    Conventions of the embedding.
    - A Python [str] is a [string] whose characters are code points below
      256; the character classes ([isspace], [isalnum], [lower]) are
      Python's on that range.
    - A pandas scalar is a [cell]; a [DataFrame] is a list of column labels
      with a list of rows.  The row index is not kept: [compile_files]
      concatenates with [ignore_index=True], resets the index after the sort
      and writes the file with [index=False].
    - What pandas and the operating system decide ([read_csv],
      [read_excel], [to_datetime], the dtype that [concat] gives a column,
      the order in which [sort_values] leaves rows with equal keys, whether a
      file can be written, [str] of a number, the base directory) is a
      [World]; a call that raises is [None].
    - Paths are POSIX paths. *)

From Stdlib Require Import ZArith QArith Qcanon Ascii String.
From stdpp Require Import base tactics option list gmap strings sorting pretty.

Local Open Scope string_scope.
Local Close Scope Qc_scope.
Local Close Scope Q_scope.
Local Open Scope list_scope.
Local Open Scope nat_scope.

(** ** Python strings *)

Module Py.

Definition ord (c : ascii) : N := N_of_ascii c.

Definition between (lo hi : N) (c : ascii) : bool :=
  ((lo <=? ord c) && (ord c <=? hi))%N.

Definition code_is (n : N) (c : ascii) : bool := (ord c =? n)%N.

(** [str.isspace] on one character: the ASCII controls TAB..CR and FS..US,
    the space, NEL and the no-break space. *)
Definition isspace (c : ascii) : bool :=
  between 9 13 c || between 28 32 c || code_is 133 c || code_is 160 c.

(** [str.isalpha]: the letters of ASCII and of Latin-1. *)
Definition isalpha (c : ascii) : bool :=
  between 65 90 c || between 97 122 c || code_is 170 c || code_is 181 c || code_is 186 c
  || between 192 214 c || between 216 246 c || between 248 255 c.

(** [str.isdecimal], [str.isdigit] or [str.isnumeric]: the digits, the
    superscripts one to three and the vulgar fractions. *)
Definition isnumeric (c : ascii) : bool :=
  between 48 57 c || code_is 178 c || code_is 179 c || code_is 185 c || between 188 190 c.

Definition isalnum (c : ascii) : bool := isalpha c || isnumeric c.

Definition lower_char (c : ascii) : ascii :=
  if between 65 90 c || between 192 214 c || between 216 222 c
  then ascii_of_N (ord c + 32) else c.

Fixpoint lower (s : string) : string :=
  match s with
  | "" => ""
  | String c s' => String (lower_char c) (lower s')
  end.

Fixpoint lstrip (s : string) : string :=
  match s with
  | "" => ""
  | String c s' => if isspace c then lstrip s' else s
  end.

Fixpoint rstrip (s : string) : string :=
  match s with
  | "" => ""
  | String c s' =>
      match rstrip s' with
      | "" => if isspace c then "" else String c ""
      | r => String c r
      end
  end.

(** [s.strip()] *)
Definition strip (s : string) : string := rstrip (lstrip s).

(** [k in s] for two strings *)
Fixpoint contains (k s : string) : bool :=
  String.prefix k s
  || match s with "" => false | String _ s' => contains k s' end.

(** [s.rfind(c)], [-1] when [c] does not occur; [i] is the index of the
    first character of [s]. *)
Fixpoint rfind_from (c : ascii) (s : string) (i : Z) : Z :=
  match s with
  | "" => (-1)%Z
  | String a s' =>
      let r := rfind_from c s' (i + 1)%Z in
      if (0 <=? r)%Z then r else if Ascii.eqb a c then i else (-1)%Z
  end.

Definition rfind (c : ascii) (s : string) : Z := rfind_from c s 0.

(** [s[i:]] and [s[:i]] for [0 <= i] *)
Fixpoint drop_str (n : nat) (s : string) : string :=
  match n, s with
  | S n', String _ s' => drop_str n' s'
  | _, _ => s
  end.

Fixpoint take_str (n : nat) (s : string) : string :=
  match n, s with
  | S n', String c s' => String c (take_str n' s')
  | _, _ => ""
  end.

Definition first_char (s : string) : option ascii :=
  match s with "" => None | String c _ => Some c end.

Fixpoint last_char (s : string) : option ascii :=
  match s with
  | "" => None
  | String c "" => Some c
  | String _ s' => last_char s'
  end.

Fixpoint chars (s : string) : list ascii :=
  match s with "" => [] | String c s' => c :: chars s' end.

(** No white space at either end. *)
Definition trimmed (s : string) : Prop :=
  (∀ c, first_char s = Some c → isspace c = false) ∧
  (∀ c, last_char s = Some c → isspace c = false).

End Py.

(** ** [os.path] on POSIX *)

Module Path.

(** [genericpath._splitext]: the extension starts at the last dot of the
    last component, unless that component has only leading dots before it. *)
Definition splitext (p : string) : string * string :=
  let sepIndex := Py.rfind "/" p in
  let dotIndex := Py.rfind "." p in
  if (sepIndex <? dotIndex)%Z then
    let filename := Py.drop_str (Z.to_nat (sepIndex + 1)) p in
    let stem := Py.take_str (Z.to_nat (dotIndex - (sepIndex + 1))) filename in
    if forallb (Ascii.eqb ".") (Py.chars stem) then (p, "")
    else (Py.take_str (Z.to_nat dotIndex) p, Py.drop_str (Z.to_nat dotIndex) p)
  else (p, "").

(** [posixpath.basename] *)
Definition basename (p : string) : string :=
  Py.drop_str (Z.to_nat (Py.rfind "/" p + 1)) p.

(** [posixpath.join] of two components *)
Definition join (a b : string) : string :=
  if String.prefix "/" b then b
  else if bool_decide (a = "") || bool_decide (Py.last_char a = Some "/"%char)
       then a +:+ b
       else a +:+ "/" +:+ b.

End Path.

(** ** Tables *)

(** The [openpyxl] and [xlrd] engines of [read_excel]. *)
Inductive engine : Type := openpyxl | xlrd.

(** A scalar of a table: missing ([NaN], and [NaT] in a column of
    timestamps), text, a number or a timestamp in nanoseconds.  A number is
    kept by its value: pandas compares numbers by value ([10 == 10.0]), so
    the integer 10 and the float 10.0 are the same cell.  Whether a column
    holds integers or floats is its dtype, which [pd.concat] decides for the
    columns of its result. *)
Inductive cell : Type :=
  | NaN
  | NaT
  | Str (s : string)
  | Num (x : Qc)
  | Timestamp (ns : Z).

#[global] Instance cell_eq_dec : EqDecision cell.
Proof. solve_decision. Defined.

(** The integer [n], and the number [n / d]. *)
Definition num (n : Z) : cell := Num (Q2Qc (inject_Z n)).
Definition frac (n : Z) (d : positive) : cell := Num (Q2Qc (n # d)).

(** [pd.notna(v)] *)
Definition notna (v : cell) : bool :=
  match v with NaN | NaT => false | _ => true end.

(** A frame with labels of type [L]: pandas gives the labels it read (any
    scalar), [read_file] turns them into text. *)
Record frame (L : Type) : Type := Frame {
  columns : list L;
  rows : list (list cell)
}.
Arguments Frame {L} _ _.
Arguments columns {L} _.
Arguments rows {L} _.

Abbreviation DataFrame := (frame string).

(** Every row has one cell per column. *)
Definition rect {L} (df : frame L) : Prop :=
  Forall (λ r, length r = length (columns df)) (rows df).

#[global] Instance rect_dec {L} (df : frame L) : Decision (rect df).
Proof. unfold rect. apply _. Defined.

(** ** The order of a column of timestamps *)

(** The sort key of a row: its timestamp at [j], [None] for [NaT]. *)
Definition ts_key (j : nat) (r : list cell) : option Z :=
  match r !! j with Some (Timestamp ns) => Some ns | _ => None end.

(** Ascending, missing values last ([na_position="last"]). *)
Definition ts_le (a b : option Z) : Prop :=
  match a, b with
  | Some x, Some y => (x ≤ y)%Z
  | _, None => True
  | None, Some _ => False
  end.

#[global] Instance ts_le_dec a b : Decision (ts_le a b).
Proof. destruct a, b; simpl; apply _. Defined.

Definition row_le (j : nat) (r1 r2 : list cell) : Prop := ts_le (ts_key j r1) (ts_key j r2).

#[global] Instance row_le_dec j r1 r2 : Decision (row_le j r1 r2).
Proof. unfold row_le. apply _. Defined.

(** ** pandas, Python and the file system *)

Record World : Type := {
  (** [pd.read_csv(path, header=h, nrows=n, encoding="utf-8",
      on_bad_lines="skip")]; [None] when it raises *)
  read_csv : string → option Z → option nat → option (frame cell);
  (** [pd.read_excel(path, header=h, nrows=n, engine=e)] *)
  read_excel : string → option Z → option nat → engine → option (frame cell);
  (** [str(v)] for a scalar that is not text *)
  repr : cell → string;
  (** [pd.to_datetime(series, infer_datetime_format=True)]: a timestamp or
      [NaT] ([None]) for every value, or it raises *)
  to_datetime : list cell → option (list (option Z));
  (** Whether [pd.concat] gives the column at a position of the stacked rows
      the dtype [float64], as it does for integers next to floats or to
      missing values.  The cells of the model are values; the dtypes that
      pandas keeps beside them are the world's. *)
  is_float64 : list (list cell) → nat → bool;
  (** The rows after [sort_values] on the column of timestamps at a
      position: pandas does not say in which order it leaves rows with
      equal keys *)
  sort_rows : nat → list (list cell) → list (list cell);
  (** Whether [to_csv] can write a table to the file of a path; it raises
      [OSError] otherwise *)
  can_write : string → frame string → bool;
  (** [os.path.dirname(os.path.abspath(__file__))] *)
  BASE_DIR : string;
  (** A frame of pandas is rectangular; a read with [nrows=n] gives at most
      [n] rows; [to_datetime] gives one value for every value; [sort_values]
      gives the same rows, in ascending order of the key, missing keys
      last. *)
  read_csv_rect : ∀ p h n df, read_csv p h n = Some df → rect df;
  read_excel_rect : ∀ p h n e df, read_excel p h n e = Some df → rect df;
  read_csv_nrows : ∀ p h n df, read_csv p h (Some n) = Some df → length (rows df) ≤ n;
  read_excel_nrows :
    ∀ p h n e df, read_excel p h (Some n) e = Some df → length (rows df) ≤ n;
  to_datetime_length : ∀ l ts, to_datetime l = Some ts → length ts = length l;
  sort_rows_perm : ∀ j rs, sort_rows j rs ≡ₚ rs;
  sort_rows_sorted : ∀ j rs, StronglySorted (row_le j) (sort_rows j rs)
}.

Definition OUTPUT_DIR (w : World) : string := Path.join (BASE_DIR w) "output".

(** [str(v)] *)
Definition str (w : World) (v : cell) : string :=
  match v with Str s => s | _ => repr w v end.

(** ** [detect_header_row] *)

Definition HEADER_KEYWORDS : gset string :=
  {[ "instrument"; "market position"; "quantity"; "entry price";
     "exit price"; "profit"; "commission"; "mae"; "mfe";
     "entry time"; "exit time"; "trade"; "entry name"; "exit name";
     "cum. net profit"; "run-up"; "drawdown"; "account"; "contract";
     "entry"; "exit"; "p&l"; "pnl" ]}.

(** [{str(v).strip().lower() for v in row if pd.notna(v)}] *)
Definition row_lower (w : World) (row : list cell) : gset string :=
  list_to_set ((λ v, Py.lower (Py.strip (str w v))) <$> filter (λ v, notna v) row).

(** [row_lower & HEADER_KEYWORDS] is not empty *)
Definition is_header (w : World) (row : list cell) : Prop :=
  row_lower w row ∩ HEADER_KEYWORDS ≠ ∅.

#[global] Instance is_header_dec w row : Decision (is_header w row).
Proof. unfold is_header. apply _. Defined.

(** The first read, with [header=None] and [nrows=30]; [None] when it
    raises. *)
Definition read_raw (w : World) (filepath : string) : option (frame cell) :=
  let ext := Py.lower (Path.splitext filepath).2 in
  if bool_decide (ext ∈ [".xlsx"; ".xls"]) then
    read_excel w filepath None (Some 30)
      (if bool_decide (ext = ".xlsx") then openpyxl else xlrd)
  else
    read_csv w filepath None (Some 30).

(** The index of a headerless read is [0, 1, ...]: [iterrows] gives every
    row with its position, and the loop returns the position of the first
    row that holds a keyword. *)
Definition detect_header_row (w : World) (filepath : string) : Z :=
  match read_raw w filepath with
  | None => 0
  | Some raw =>
      match list_find (is_header w) (rows raw) with
      | Some (i, _) => Z.of_nat i
      | None => 0
      end
  end%Z.

(** ** The pandas operations the pipeline uses *)

Module pd.

(** The values of the column at position [j]. *)
Definition column_at (j : nat) (rs : list (list cell)) : list cell :=
  (λ r, default NaN (r !! j)) <$> rs.

(** [df.dropna(how="all")]: a row stays when one of its cells is present. *)
Definition dropna_rows {L} (df : frame L) : frame L :=
  Frame (columns df) (filter (λ r, Exists (λ v, notna v) r) (rows df)).

Fixpoint select {A} (mask : list bool) (l : list A) : list A :=
  match mask, l with
  | b :: mask', x :: l' => if b then x :: select mask' l' else select mask' l'
  | _, _ => []
  end.

(** The position in [mask] of its [j]-th [true]: the column of the frame
    that the [j]-th selected column was. *)
Fixpoint nth_true (mask : list bool) (j : nat) : option nat :=
  match mask with
  | [] => None
  | b :: mask' =>
      if b then match j with 0 => Some 0 | S j' => S <$> nth_true mask' j' end
      else S <$> nth_true mask' j
  end.

(** For every column, whether one of its cells is present. *)
Definition col_mask (n : nat) (rs : list (list cell)) : list bool :=
  (λ j, bool_decide (Exists (λ v, notna v) (column_at j rs))) <$> seq 0 n.

(** [df.dropna(axis=1, how="all")] *)
Definition dropna_cols {L} (df : frame L) : frame L :=
  let mask := col_mask (length (columns df)) (rows df) in
  Frame (select mask (columns df)) (select mask <$> rows df).

(** [df.empty]: one of the axes has length 0. *)
Definition empty {L} (df : frame L) : bool :=
  bool_decide (columns df = [] ∨ rows df = []).

(** The first occurrence of every element, in order; [seen] holds the
    elements met so far. *)
Fixpoint keep_first_go {A} `{EqDecision A} (seen l : list A) : list A :=
  match l with
  | [] => []
  | x :: l' =>
      if decide (x ∈ seen) then keep_first_go seen l'
      else x :: keep_first_go (x :: seen) l'
  end.

Definition keep_first {A} `{EqDecision A} (l : list A) : list A :=
  keep_first_go [] l.

(** The row of [df] laid out on the labels [cols]: a label [df] does not
    have gives [NaN]. *)
Definition realign (cols : list string) (df : DataFrame) : list (list cell) :=
  (λ r, (λ c, match list_find (c =.) (columns df) with
              | Some (j, _) => default NaN (r !! j)
              | None => NaN
              end) <$> cols) <$> rows df.

(** An [int64] as a [float64]: the nearest of the numbers with 53
    significant bits, the even one of two that are as near. *)
Definition float64 (n : Z) : Z :=
  let a := Z.abs n in
  let e := (Z.log2 a - 52)%Z in
  if (e <=? 0)%Z then n
  else
    let q := Z.shiftr a e in
    let r := (a - Z.shiftl q e)%Z in
    let half := Z.shiftl 1 (e - 1) in
    let q' := if (r <? half)%Z then q
              else if (half <? r)%Z then (q + 1)%Z
              else if Z.even q then q else (q + 1)%Z in
    (Z.sgn n * Z.shiftl q' e)%Z.

(** A cell of a column that becomes [float64]: a whole number is rounded, a
    number with a fraction is a float already. *)
Definition astype_float64 (v : cell) : cell :=
  match v with
  | Num x => if decide (Qden x = 1%positive) then num (float64 (Qnum x)) else v
  | _ => v
  end.

(** The stacked rows after every column has been given its dtype. *)
Definition coerce (w : World) (rs : list (list cell)) : list (list cell) :=
  (λ r, imap (λ j v, if is_float64 w rs j then astype_float64 v else v) r) <$> rs.

(** [pd.concat(frames, ignore_index=True)].  Frames with the same labels are
    stacked.  Otherwise the labels are united in the order they are first
    seen and every frame is reindexed on them, which pandas refuses for a
    frame whose labels repeat ([InvalidIndexError]); [None] is the exception,
    also for no frame at all ([ValueError]).  Every column of the result has
    one dtype. *)
Definition concat (w : World) (frames : list DataFrame) : option DataFrame :=
  match frames with
  | [] => None
  | f :: fs =>
      if decide (Forall (λ g, columns g = columns f) fs) then
        Some (Frame (columns f) (coerce w (mjoin (rows <$> frames))))
      else if decide (Forall (λ g, NoDup (columns g)) frames) then
        let cols := keep_first (mjoin (columns <$> frames)) in
        Some (Frame cols (coerce w (mjoin (realign cols <$> frames))))
      else None
  end.

(** [combined.drop_duplicates(subset=list(combined.columns))]: rows equal in
    every column, the first one kept. *)
Definition drop_duplicates (df : DataFrame) : DataFrame :=
  Frame (columns df) (keep_first (rows df)).

(** The positions of the label [col]. *)
Definition positions (col : string) (cols : list string) : list nat :=
  filter (λ j, cols !! j = Some col) (seq 0 (length cols)).

(** The cell of a parsed value. *)
Definition ts_cell (t : option Z) : cell :=
  match t with Some ns => Timestamp ns | None => NaT end.

(** [combined[col] = series] for the column at position [j] *)
Definition assign (j : nat) (series : list (option Z)) (df : DataFrame) : DataFrame :=
  Frame (columns df) (zip_with (λ r t, <[j := ts_cell t]> r) (rows df) series).

(** [combined.sort_values(col, inplace=True)] on the column of timestamps at
    [j], then [reset_index(drop=True)]. *)
Definition sort_values (w : World) (j : nat) (df : DataFrame) : DataFrame :=
  Frame (columns df) (sort_rows w j (rows df)).

End pd.

(** ** [read_file] *)

(** The second read, with the detected header row; [None] when pandas raises
    and when the extension is none of the three. *)
Definition read_parsed (w : World) (filepath : string) : option (frame cell) :=
  let ext := Py.lower (Path.splitext filepath).2 in
  let header_row := detect_header_row w filepath in
  if bool_decide (ext ∈ [".xlsx"; ".xls"]) then
    let engine := if bool_decide (ext = ".xlsx") then openpyxl else xlrd in
    read_excel w filepath (Some header_row) None engine
  else if bool_decide (ext = ".csv") then
    read_csv w filepath (Some header_row) None
  else None.

(** [df.columns = [str(c).strip() for c in df.columns]] *)
Definition strip_columns (w : World) (df : frame cell) : DataFrame :=
  Frame ((λ c, Py.strip (str w c)) <$> columns df) (rows df).

Definition read_file (w : World) (filepath : string) : option DataFrame :=
  match read_parsed w filepath with
  | None => None
  | Some df =>
      let df := pd.dropna_rows df in
      let df := pd.dropna_cols df in
      let df := strip_columns w df in
      if pd.empty df then None else Some df
  end.

(** ** [compile_files] *)

(** The events of a job. *)
Inductive event : Type :=
  | Progress (current total : Z) (file : string)
  | Error (message : string)
  | Done (nrows dupes : Z) (filename : string).

#[global] Instance event_eq_dec : EqDecision event.
Proof. solve_decision. Defined.

(** The queue of every job, oldest event first, and the files of the output
    directory by path. *)
Record State : Type := {
  progress_queues : gmap string (list event);
  output_files : gmap string DataFrame
}.

(** What a call does: it returns its triple, or an exception of pandas or
    of the operating system leaves it. *)
Inductive outcome : Type :=
  | Returned (out_path : option string) (nrows dupes : Z)
  | Raised.

(** [push]: [q] is the queue of [job_id], if it has one. *)
Definition push (job_id : string) (msg : event) (st : State) : State :=
  match progress_queues st !! job_id with
  | Some q => {| progress_queues := <[job_id := q ++ [msg]]> (progress_queues st);
                 output_files := output_files st |}
  | None => st
  end.

(** The file of [out_path] written with [df]. *)
Definition write_file (out_path : string) (df : DataFrame) (st : State) : State :=
  {| progress_queues := progress_queues st;
     output_files := <[out_path := df]> (output_files st) |}.

(** [combined.to_csv(out_path, index=False)]; [None] when it raises. *)
Definition to_csv (w : World) (out_path : string) (df : DataFrame) (st : State)
    : option State :=
  if can_write w out_path df then Some (write_file out_path df st) else None.

(** [len(df)] *)
Definition len (df : DataFrame) : Z := Z.of_nat (length (rows df)).

(** The loop over [enumerate(file_paths, 1)], from index [idx] on. *)
Fixpoint read_all (w : World) (job_id : string) (total idx : Z)
    (file_paths : list string) (frames : list DataFrame) (st : State)
    : list DataFrame * State :=
  match file_paths with
  | [] => (frames, st)
  | fp :: rest =>
      let st := push job_id (Progress idx total (Path.basename fp)) st in
      let frames :=
        match read_file w fp with
        | Some df => frames ++ [df]
        | None => frames
        end in
      read_all w job_id total (idx + 1) rest frames st
  end.

(** [any(k in col.lower() for k in ("time", "date", "entry", "exit"))] *)
Definition is_temporal (col : string) : bool :=
  existsb (λ k, Py.contains k (Py.lower col)) ["time"; "date"; "entry"; "exit"].

(** The body of the [try]: [None] when it raises.  [combined[col]] is a
    column when the label occurs once; for a repeated label it is a frame,
    which [to_datetime] refuses. *)
Definition try_sort (w : World) (col : string) (combined : DataFrame) : option DataFrame :=
  match pd.positions col (columns combined) with
  | [j] =>
      match to_datetime w (pd.column_at j (rows combined)) with
      | Some series => Some (pd.sort_values w j (pd.assign j series combined))
      | None => None
      end
  | _ => None
  end.

(** The loop over the columns: [break] at the first column that sorts,
    [continue] otherwise. *)
Fixpoint sort_loop (w : World) (cols : list string) (combined : DataFrame) : DataFrame :=
  match cols with
  | [] => combined
  | col :: rest =>
      if is_temporal col then
        match try_sort w col combined with
        | Some sorted => sorted
        | None => sort_loop w rest combined
        end
      else sort_loop w rest combined
  end.

Definition sort_by_first_datetime (w : World) (combined : DataFrame) : DataFrame :=
  sort_loop w (columns combined) combined.

Fixpoint map_chars (f : ascii → ascii) (s : string) : string :=
  match s with
  | "" => ""
  | String c s' => String (f c) (map_chars f s')
  end.

(** [c if c.isalnum() or c in " _-" else "_"] *)
Definition safe_char (c : ascii) : ascii :=
  if Py.isalnum c || Py.contains (String c "") " _-" then c else "_"%char.

Definition safe_name (account_name : string) : string :=
  Py.strip (map_chars safe_char account_name).

Definition out_path (w : World) (account_name : string) : string :=
  Path.join (OUTPUT_DIR w) (safe_name account_name +:+ "_compiled.csv").

Definition compile_files (w : World) (file_paths : list string)
    (account_name job_id : string) (st : State) : State * outcome :=
  let total := Z.of_nat (length file_paths) in
  let '(frames, st) := read_all w job_id total 1 file_paths [] st in
  match frames with
  | [] =>
      (push job_id (Error "No readable data found in the selected files.") st,
       Returned None 0 0)
  | _ =>
      match pd.concat w frames with
      | None => (st, Raised)
      | Some combined =>
          let before := len combined in
          let combined := pd.drop_duplicates combined in
          let dupes_removed := (before - len combined)%Z in
          let combined := sort_by_first_datetime w combined in
          let out_path := out_path w account_name in
          match to_csv w out_path combined st with
          | None => (st, Raised)
          | Some st =>
              (push job_id
                 (Done (len combined) dupes_removed (Path.basename out_path)) st,
               Returned (Some out_path) (len combined) dupes_removed)
          end
      end
  end.

(** ** The events of a run *)

(** The progress events of the files [file_paths], the first of them with
    index [idx]. *)
Definition progress_events (total idx : Z) (file_paths : list string) : list event :=
  imap (λ i fp, Progress (idx + Z.of_nat i) total (Path.basename fp)) file_paths.

(** Pushing a list of events, oldest first. *)
Definition push_all (job_id : string) (msgs : list event) (st : State) : State :=
  foldl (λ st msg, push job_id msg st) st msgs.

Definition is_terminal (msg : event) : bool :=
  match msg with Progress _ _ _ => false | _ => true end.

(** The tables that the files of a batch give. *)
Definition frames_of (w : World) (file_paths : list string) : list DataFrame :=
  omap (read_file w) file_paths.

(** The number of rows of a list of tables. *)
Definition total_rows (frames : list DataFrame) : nat :=
  sum_list ((λ df, length (rows df)) <$> frames).

Definition is_error (msg : event) : bool :=
  match msg with Error _ => true | _ => false end.

(** ** The characters of a safe name *)

(** A character that the sanitization keeps: alphanumeric, a space, an
    underscore or a hyphen. *)
Definition kept (c : ascii) : bool :=
  Py.isalnum c || bool_decide (c ∈ [" "; "_"; "-"]%char).

(** ** The tables of the specification's example *)

Definition example_columns : list string := ["symbol"; "qty"; "price"].

Definition AAPL : list cell := [Str "AAPL"; num 10; num 100].
Definition MSFT : list cell := [Str "MSFT"; num 5; num 50].

Definition example_A : DataFrame := Frame example_columns [AAPL; AAPL].
Definition example_B : DataFrame := Frame example_columns [AAPL; MSFT].

(** ** A world of sheets

    A concrete [World] to run the pipeline in: every file is a sheet of
    cells, a read with [header=None] numbers the columns, a read with
    [header=h] takes row [h] as the labels and the rows below it as the
    data.  Whole numbers parse as timestamps, text does not. *)

Definition sheet_read (sheet : list (list cell)) (header : option Z) : option (frame cell) :=
  match header with
  | None => Some (Frame (num ∘ Z.of_nat <$> seq 0 (length (default [] (head sheet)))) sheet)
  | Some h =>
      match sheet !! Z.to_nat h with
      | Some labels => Some (Frame labels (drop (S (Z.to_nat h)) sheet))
      | None => None
      end
  end.

Definition sheet_lookup (files : list (string * list (list cell)))
    (p : string) (header : option Z) (n : option nat) : option (frame cell) :=
  match (list_to_map files : gmap string (list (list cell))) !! p with
  | Some sheet =>
      match sheet_read sheet header with
      | Some df =>
          if decide (rect df) then
            Some (Frame (columns df)
                    (match n with Some k => take k (rows df) | None => rows df end))
          else None
      | None => None
      end
  | None => None
  end.

(** A file name of at most 255 characters can be written. *)
Definition sheet_can_write (p : string) (df : DataFrame) : bool :=
  bool_decide (String.length (Path.basename p) ≤ 255).

(** The numbers of a sheet are integers when they are whole: a column of
    numbers is [float64] when one of them has a fraction or is missing. *)
Definition sheet_is_float64 (rs : list (list cell)) (j : nat) : bool :=
  let col := pd.column_at j rs in
  forallb (λ v, match v with Num _ | NaN => true | _ => false end) col
  && existsb (λ v, match v with
                   | Num x => negb (bool_decide (Qden x = 1%positive))
                   | _ => true
                   end) col.

(** A stable sort: of rows that compare equal, the one that came first stays
    first. *)
Fixpoint insert_by {A} (R : relation A) `{∀ x y, Decision (R x y)}
    (x : A) (l : list A) : list A :=
  match l with
  | [] => [x]
  | y :: l' => if decide (R x y) then x :: l else y :: insert_by R x l'
  end.

Definition stable_sort {A} (R : relation A) `{∀ x y, Decision (R x y)}
    (l : list A) : list A :=
  foldr (insert_by R) [] l.

Lemma insert_by_perm {A} (R : relation A) `{∀ x y, Decision (R x y)} x l :
  insert_by R x l ≡ₚ x :: l.
Proof.
  induction l as [|y l IH]; simpl; [done|].
  case_decide; [done|]. by rewrite IH, Permutation_swap.
Qed.

Lemma stable_sort_perm {A} (R : relation A) `{∀ x y, Decision (R x y)} l :
  stable_sort R l ≡ₚ l.
Proof.
  induction l as [|x l IH]; simpl; [done|].
  by rewrite insert_by_perm, IH.
Qed.

Lemma insert_by_sorted {A} (R : relation A) `{∀ x y, Decision (R x y)}
    `{!Total R} `{!Transitive R} x l :
  StronglySorted R l → StronglySorted R (insert_by R x l).
Proof.
  induction 1 as [|y l Hl IH Hy]; simpl.
  { repeat constructor. }
  case_decide as Hxy.
  - constructor; [by constructor|].
    constructor; [done|]. eapply Forall_impl; [exact Hy|].
    intros z Hz. by transitivity y.
  - constructor; [done|].
    rewrite insert_by_perm. constructor; [|done].
    by destruct (total R x y).
Qed.

Lemma stable_sort_sorted {A} (R : relation A) `{∀ x y, Decision (R x y)}
    `{!Total R} `{!Transitive R} l :
  StronglySorted R (stable_sort R l).
Proof.
  induction l as [|x l IH]; simpl; [constructor|].
  by apply insert_by_sorted.
Qed.

#[global] Instance ts_le_total : Total ts_le.
Proof. intros [x|] [y|]; simpl; auto. lia. Qed.

#[global] Instance ts_le_trans : Transitive ts_le.
Proof. intros [x|] [y|] [z|]; simpl; auto; try done. lia. Qed.

#[global] Instance row_le_total j : Total (row_le j).
Proof. intros r1 r2. apply ts_le_total. Qed.

#[global] Instance row_le_trans j : Transitive (row_le j).
Proof. intros r1 r2 r3. apply ts_le_trans. Qed.

Definition sheet_repr (v : cell) : string :=
  match v with
  | Num x =>
      if decide (Qden x = 1%positive) then pretty (Qnum x)
      else pretty (Qnum x) +:+ "/" +:+ pretty (Zpos (Qden x))
  | Timestamp ns => pretty ns
  | NaN => "nan"
  | NaT => "NaT"
  | Str s => s
  end.

Definition sheet_to_datetime (l : list cell) : option (list (option Z)) :=
  mapM (λ v, match v with
             | Num x => if decide (Qden x = 1%positive) then Some (Some (Qnum x)) else None
             | Timestamp ns => Some (Some ns)
             | NaN | NaT => Some None
             | Str _ => None
             end) l.

Definition sheet_world (files : list (string * list (list cell))) : World.
Proof.
  refine {| read_csv := sheet_lookup files;
            read_excel := λ p h n _, sheet_lookup files p h n;
            repr := sheet_repr;
            to_datetime := sheet_to_datetime;
            is_float64 := sheet_is_float64;
            sort_rows := λ j rs, stable_sort (row_le j) rs;
            can_write := sheet_can_write;
            BASE_DIR := "/srv/app" |}.
  - intros p h n df. unfold sheet_lookup.
    destruct (_ !! p) as [sheet|]; [|done].
    destruct (sheet_read sheet h) as [df'|]; [|done].
    destruct (decide (rect df')) as [Hrect|]; [|done]. intros [= <-].
    unfold rect in *. simpl. destruct n; [by apply Forall_take|done].
  - intros p h n _ df. unfold sheet_lookup.
    destruct (_ !! p) as [sheet|]; [|done].
    destruct (sheet_read sheet h) as [df'|]; [|done].
    destruct (decide (rect df')) as [Hrect|]; [|done]. intros [= <-].
    unfold rect in *. simpl. destruct n; [by apply Forall_take|done].
  - intros p h n df. unfold sheet_lookup.
    destruct (_ !! p) as [sheet|]; [|done].
    destruct (sheet_read sheet h) as [df'|]; [|done].
    destruct (decide (rect df')); [|done]. intros [= <-]. simpl.
    rewrite length_take. lia.
  - intros p h n _ df. unfold sheet_lookup.
    destruct (_ !! p) as [sheet|]; [|done].
    destruct (sheet_read sheet h) as [df'|]; [|done].
    destruct (decide (rect df')); [|done]. intros [= <-]. simpl.
    rewrite length_take. lia.
  - intros l ts Hts. symmetry. exact (length_mapM _ _ _ Hts).
  - intros j rs. apply stable_sort_perm.
  - intros j rs. apply stable_sort_sorted; apply _.
Defined.

Definition example_files : list (string * list (list cell)) :=
  [("uploads/A.csv", (Str <$> example_columns) :: rows example_A);
   ("uploads/B.csv", (Str <$> example_columns) :: rows example_B)].

Definition trades_sheet : list (list cell) :=
  [ [Str "NinjaTrader export"; NaN; NaN];
    [NaN; NaN; NaN];
    [Str " Instrument "; Str "Entry Time"; Str "Profit"];
    [Str "ES 03-24"; num 30; frac 25 2];
    [NaN; NaN; NaN];
    [Str "NQ 03-24"; num 10; num 7];
    [Str "ES 03-24"; num 30; frac 25 2] ].

(** Two files for one batch: the first has two labels that are the same
    once trimmed, the second has another label. *)
Definition repeated_label_files : list (string * list (list cell)) :=
  [("uploads/a.csv", [[Str "Entry time"; Str " Entry time"]; [num 1; num 2]]);
   ("uploads/b.csv", [[Str "Profit"]; [num 3]])].

Definition empty_state (job_id : string) : State :=
  {| progress_queues := {[ job_id := [] ]}; output_files := ∅ |}.

Definition example_world : World := sheet_world example_files.

Definition trades_world : World := sheet_world [("uploads/t.csv", trades_sheet)].

(** What [read_file] gives for the sheet of trades, the same without its
    repeated row, and that sorted by the entry time. *)
Definition trades_columns : list string := ["Instrument"; "Entry Time"; "Profit"].

Definition trades_table : DataFrame :=
  Frame trades_columns
    [ [Str "ES 03-24"; num 30; frac 25 2];
      [Str "NQ 03-24"; num 10; num 7];
      [Str "ES 03-24"; num 30; frac 25 2] ].


Definition trades_sorted : DataFrame :=
  Frame trades_columns
    [ [Str "NQ 03-24"; Timestamp 10; num 7];
      [Str "ES 03-24"; Timestamp 30; frac 25 2] ].


(** ** The session store and the routes

    The routes of the application on the store they share.  A request is
    given by its decoded parts (the session id of the URL, the uploaded
    files, the fields of the JSON body, a field that is missing being
    [None]); [uuid4] is the sequence of identifiers that [uuid.uuid4()]
    draws, and the store counts the draws.  The worker thread of
    [compile_route] is its body [run], run when the thread is scheduled. *)

(** An entry of [sessions[sid]["files"]]. *)
Record file_entry : Type := FileEntry {
  entry_id : string;
  entry_name : string;
  entry_path : string;
  entry_size : Z
}.

#[global] Instance file_entry_eq_dec : EqDecision file_entry.
Proof. solve_decision. Defined.

(** A value of [sessions]. *)
Record session : Type := Session {
  files : list file_entry;
  account : string
}.

(** [sessions], the queues and the output directory, the files of the
    upload directory by path, and the number of identifiers drawn. *)
Record Server : Type := {
  sessions : gmap string session;
  jobs : State;
  uploads : gset string;
  drawn : nat
}.

(** A JSON reply with its status. *)
Inductive reply (A : Type) : Type :=
  | Ok200 (body : A)
  | Err400 (error : string)
  | Err404 (error : string).
Arguments Ok200 {A} _.
Arguments Err400 {A} _.
Arguments Err404 {A} _.

(** A file of [request.files.getlist("files")]: its name and the size of
    what is saved. *)
Record upload_file : Type := Upload {
  filename : string;
  content_size : Z
}.

Definition UPLOAD_DIR (w : World) : string := Path.join (BASE_DIR w) "uploads".

(** What the routes list of an entry: its id, name and size. *)
Definition listing (f : file_entry) : string * string * Z :=
  (entry_id f, entry_name f, entry_size f).

Section routes.
Context (w : World) (uuid4 : nat → string).

Definition new_session (sv : Server) : Server * reply string :=
  let sid := uuid4 (drawn sv) in
  ({| sessions := <[sid := Session [] "Account_1"]> (sessions sv);
      jobs := jobs sv;
      uploads := uploads sv;
      drawn := S (drawn sv) |},
   Ok200 sid).

(** The loop of [upload] over the uploaded files; [n] counts the draws.  It
    gives the entries that are appended, in order. *)
Fixpoint upload_loop (uploaded : list upload_file) (n : nat) : list file_entry * nat :=
  match uploaded with
  | [] => ([], n)
  | f :: rest =>
      if bool_decide (filename f = "") then upload_loop rest n
      else
        let ext := Py.lower (Path.splitext (filename f)).2 in
        if bool_decide (ext ∈ [".csv"; ".xlsx"; ".xls"]) then
          let file_id := uuid4 n in
          let dest := Path.join (UPLOAD_DIR w) (file_id +:+ ext) in
          let entry := FileEntry file_id (filename f) dest (content_size f) in
          let '(entries, n') := upload_loop rest (S n) in
          (entry :: entries, n')
        else upload_loop rest n
  end.

(** The reply holds the listing of the added entries and the new total. *)
Definition upload (sid : string) (uploaded : list upload_file) (sv : Server)
    : Server * reply (list (string * string * Z) * Z) :=
  match sessions sv !! sid with
  | None => (sv, Err400 "Invalid session")
  | Some sess =>
      let '(entries, n) := upload_loop uploaded (drawn sv) in
      let staged := files sess ++ entries in
      ({| sessions := <[sid := Session staged (account sess)]> (sessions sv);
          jobs := jobs sv;
          uploads := uploads sv ∪ list_to_set (entry_path <$> entries);
          drawn := n |},
       Ok200 (listing <$> entries, Z.of_nat (length staged)))
  end.

Definition list_files (sid : string) (sv : Server)
    : reply (list (string * string * Z) * string) :=
  match sessions sv !! sid with
  | None => Err400 "Invalid session"
  | Some sess => Ok200 (listing <$> files sess, account sess)
  end.

(** [file_id] is [data.get("id")]; the reply holds the total and the number
    of entries removed.  The stored files are left where they are. *)
Definition remove_file (sid : string) (file_id : option string) (sv : Server)
    : Server * reply (Z * Z) :=
  match sessions sv !! sid with
  | None => (sv, Err400 "Invalid session")
  | Some sess =>
      let before := Z.of_nat (length (files sess)) in
      let kept_files := filter (λ f, Some (entry_id f) ≠ file_id) (files sess) in
      ({| sessions := <[sid := Session kept_files (account sess)]> (sessions sv);
          jobs := jobs sv;
          uploads := uploads sv;
          drawn := drawn sv |},
       Ok200 (Z.of_nat (length kept_files),
              (before - Z.of_nat (length kept_files))%Z))
  end.

(** [os.remove] of every staged path (a failure is passed over), then the
    list is emptied; the reply holds the total, 0. *)
Definition clear_files (sid : string) (sv : Server) : Server * reply Z :=
  match sessions sv !! sid with
  | None => (sv, Err400 "Invalid session")
  | Some sess =>
      ({| sessions := <[sid := Session [] (account sess)]> (sessions sv);
          jobs := jobs sv;
          uploads := uploads sv ∖ list_to_set (entry_path <$> files sess);
          drawn := drawn sv |},
       Ok200 0%Z)
  end.

(** [new_account] is the field ["account"] of the body, if it has one. *)
Definition set_account (sid : string) (new_account : option string) (sv : Server)
    : Server * reply bool :=
  match sessions sv !! sid with
  | None => (sv, Err400 "Invalid session")
  | Some sess =>
      ({| sessions := <[sid := Session (files sess) (default "Account_1" new_account)]>
                        (sessions sv);
          jobs := jobs sv;
          uploads := uploads sv;
          drawn := drawn sv |},
       Ok200 true)
  end.

(** The route registers an empty queue under a new job id and starts the
    worker; the reply holds the job id. *)
Definition compile_route (sid : string) (sv : Server) : Server * reply string :=
  match sessions sv !! sid with
  | None => (sv, Err400 "Invalid session")
  | Some sess =>
      if bool_decide (files sess = []) then (sv, Err400 "No files staged")
      else
        let job_id := uuid4 (drawn sv) in
        ({| sessions := sessions sv;
            jobs := {| progress_queues := <[job_id := []]> (progress_queues (jobs sv));
                       output_files := output_files (jobs sv) |};
            uploads := uploads sv;
            drawn := S (drawn sv) |},
         Ok200 job_id)
  end.

(** The body of the worker thread: [sess] is the session as it is when the
    thread reads it. *)
Definition run (sess : session) (job_id : string) (sv : Server) : Server * outcome :=
  let '(st, result) :=
    compile_files w (entry_path <$> files sess) (account sess) job_id (jobs sv) in
  ({| sessions := sessions sv;
      jobs := st;
      uploads := uploads sv;
      drawn := drawn sv |},
   result).

(** [os.path.isfile] is whether the output directory has the file. *)
Definition download (name : string) (sv : Server) : reply DataFrame :=
  match output_files (jobs sv) !! Path.join (OUTPUT_DIR w) name with
  | Some df => Ok200 df
  | None => Err404 "File not found"
  end.

End routes.

(** A store with nothing in it, and identifiers to draw. *)
Definition empty_server : Server :=
  {| sessions := ∅;
     jobs := {| progress_queues := ∅; output_files := ∅ |};
     uploads := ∅;
     drawn := 0 |}.

Definition demo_uuid4 (n : nat) : string := "id-" +:+ pretty n.

(** An uploaded file that [upload] stages: it has a name, and the name ends
    in [.csv], [.xlsx] or [.xls] in any case. *)
Definition accepted (f : upload_file) : Prop :=
  filename f ≠ "" ∧
  Py.lower (Path.splitext (filename f)).2 ∈ [".csv"; ".xlsx"; ".xls"].

#[global] Instance accepted_dec f : Decision (accepted f).
Proof. unfold accepted. apply _. Defined.

(** What an identifier of [uuid.uuid4()] is here: not empty, with no dot
    and no slash (it is made of hexadecimal digits and hyphens). *)
Definition uuid_like (s : string) : Prop :=
  s ≠ "" ∧ Forall (λ c, c ≠ "."%char ∧ c ≠ "/"%char) (Py.chars s).

(** A session with two staged files, and the uploads of one request. *)
Definition staged_a : file_entry :=
  FileEntry "id-a" "Jan.csv" "/srv/app/uploads/id-a.csv" 120.
Definition staged_b : file_entry :=
  FileEntry "id-b" "Feb.xlsx" "/srv/app/uploads/id-b.xlsx" 340.

Definition demo_server : Server :=
  {| sessions := {[ "s1" := Session [staged_a; staged_b] "Sim101" ]};
     jobs := {| progress_queues := ∅; output_files := ∅ |};
     uploads := {[ "/srv/app/uploads/id-a.csv"; "/srv/app/uploads/id-b.xlsx" ]};
     drawn := 0 |}.

Definition demo_uploads : list upload_file :=
  [Upload "March.CSV" 10; Upload "" 5; Upload "notes.txt" 7; Upload "q1.xls" 20].

(** A store whose session ["s"] has staged the sheet of trades. *)
Definition trades_server : Server :=
  {| sessions :=
       {[ "s" := Session [FileEntry "f1" "trades.csv" "uploads/t.csv" 99] "My Account #1" ]};
     jobs := {| progress_queues := ∅; output_files := ∅ |};
     uploads := {[ "uploads/t.csv" ]};
     drawn := 0 |}.

(** ** Header detection *)

Lemma is_header_iff w row :
  is_header w row ↔
  ∃ v, v ∈ row ∧ notna v ∧ Py.lower (Py.strip (str w v)) ∈ HEADER_KEYWORDS.
Proof.
  unfold is_header, row_lower. split.
  - intros [k Hk]%set_choose_L.
    apply elem_of_intersection in Hk as [Hk Hkw].
    apply elem_of_list_to_set, list_elem_of_fmap in Hk as (v & -> & Hv).
    apply list_elem_of_filter in Hv as [Hna Hv]. eauto.
  - intros (v & Hv & Hna & Hkw) Hempty.
    apply (not_elem_of_empty (C := gset string) (Py.lower (Py.strip (str w v)))).
    rewrite <- Hempty. apply elem_of_intersection. split; [|exact Hkw].
    apply elem_of_list_to_set, list_elem_of_fmap.
    exists v. split; [reflexivity|].
    apply list_elem_of_filter. split; assumption.
Qed.

Lemma read_raw_nrows w fp raw : read_raw w fp = Some raw → length (rows raw) ≤ 30.
Proof.
  unfold read_raw. case_bool_decide.
  - apply read_excel_nrows.
  - apply read_csv_nrows.
Qed.

Lemma detect_header_row_found w fp raw i row :
  read_raw w fp = Some raw →
  list_find (is_header w) (rows raw) = Some (i, row) →
  detect_header_row w fp = Z.of_nat i.
Proof.
  intros Hraw Hfind. unfold detect_header_row. by rewrite Hraw, Hfind.
Qed.

Lemma detect_header_row_not_found w fp raw :
  read_raw w fp = Some raw →
  list_find (is_header w) (rows raw) = None →
  detect_header_row w fp = 0%Z.
Proof.
  intros Hraw Hfind. unfold detect_header_row. by rewrite Hraw, Hfind.
Qed.

(** C4. The header locator reads the file without a header and with
    [nrows=30], by the reader of its extension.  When that read raises, the
    result is 0.  When it gives a frame, the frame has at most 30 rows, the
    result is the index of the first of them in which a present value,
    trimmed and lower-cased, is a word of the keyword vocabulary, and 0 when
    there is no such row. *)
Theorem detect_header_row_first_keyword_row (w : World) (filepath : string) :
  let ext := Py.lower (Path.splitext filepath).2 in
  let raw :=
    if bool_decide (ext = ".xlsx") then read_excel w filepath None (Some 30) openpyxl
    else if bool_decide (ext = ".xls") then read_excel w filepath None (Some 30) xlrd
    else read_csv w filepath None (Some 30) in
  (raw = None → detect_header_row w filepath = 0%Z) ∧
  (∀ df, raw = Some df →
     length (rows df) ≤ 30 ∧
     (∀ i row,
        rows df !! i = Some row →
        (∃ v, v ∈ row ∧ notna v ∧ Py.lower (Py.strip (str w v)) ∈ HEADER_KEYWORDS) →
        (∀ j row' v, j < i → rows df !! j = Some row' → v ∈ row' → notna v →
           Py.lower (Py.strip (str w v)) ∉ HEADER_KEYWORDS) →
        detect_header_row w filepath = Z.of_nat i) ∧
     ((∀ i row v, rows df !! i = Some row → v ∈ row → notna v →
         Py.lower (Py.strip (str w v)) ∉ HEADER_KEYWORDS) →
        detect_header_row w filepath = 0%Z)).
Proof.
  intros ext raw.
  assert (read_raw w filepath = raw) as Hread.
  { unfold read_raw, raw. fold ext.
    destruct (decide (ext = ".xlsx")) as [Hx|Hx].
    - rewrite !(bool_decide_eq_true_2 (ext = ".xlsx")) by done.
      rewrite bool_decide_eq_true_2; [done|]. rewrite Hx. left.
    - rewrite !(bool_decide_eq_false_2 (ext = ".xlsx")) by done.
      destruct (decide (ext = ".xls")) as [Hs|Hs].
      + rewrite (bool_decide_eq_true_2 (ext = ".xls")) by done.
        rewrite bool_decide_eq_true_2; [done|]. rewrite Hs. right. left.
      + rewrite (bool_decide_eq_false_2 (ext = ".xls")) by done.
        rewrite bool_decide_eq_false_2; [done|].
        intros [?|[?|[]%elem_of_nil]%elem_of_cons]%elem_of_cons; done. }
  split.
  - intros Hraw. unfold detect_header_row. by rewrite Hread, Hraw.
  - intros df Hdf. rewrite Hdf in Hread. split_and!.
    + by eapply read_raw_nrows.
    + intros i row Hrow Hhead Hfirst.
      apply (detect_header_row_found w filepath df i row Hread).
      apply list_find_Some. split_and!; [done|by apply is_header_iff|].
      intros j row' Hj Hlt (v & Hv & Hna & Hkw)%is_header_iff.
      by apply (Hfirst j row' v Hlt Hj Hv Hna).
    + intros Hnone.
      apply (detect_header_row_not_found w filepath df Hread).
      apply list_find_None, Forall_lookup. intros i row Hrow.
      intros (v & Hv & Hna & Hkw)%is_header_iff.
      by apply (Hnone i row v Hrow Hv Hna).
Qed.

(** C9. [detect_header_row] is a total function and its result is an index
    of the 30-row window: between 0 and 29. *)
Theorem detect_header_row_range (w : World) (filepath : string) :
  (0 ≤ detect_header_row w filepath < 30)%Z.
Proof.
  unfold detect_header_row.
  destruct (read_raw w filepath) as [raw|] eqn:Hraw; [|lia].
  destruct (list_find _ _) as [[i row]|] eqn:Hfind; [|lia].
  apply list_find_Some in Hfind as (Hrow & _ & _).
  apply lookup_lt_Some in Hrow.
  apply read_raw_nrows in Hraw. lia.
Qed.

(** ** Python strings: trimming *)

Lemma lstrip_first s c : Py.first_char (Py.lstrip s) = Some c → Py.isspace c = false.
Proof.
  induction s as [|a s IH]; simpl; [done|].
  destruct (Py.isspace a) eqn:Ha; [done|]. simpl. congruence.
Qed.

Lemma rstrip_first s c :
  Py.first_char (Py.rstrip s) = Some c → Py.first_char s = Some c.
Proof.
  destruct s as [|a s]; simpl; [done|].
  destruct (Py.rstrip s); [destruct (Py.isspace a)|]; simpl; congruence.
Qed.

Lemma rstrip_last s c : Py.last_char (Py.rstrip s) = Some c → Py.isspace c = false.
Proof.
  induction s as [|a s IH]; simpl; [done|].
  destruct (Py.rstrip s) as [|b r] eqn:Hr.
  - destruct (Py.isspace a) eqn:Ha; simpl; congruence.
  - simpl. exact IH.
Qed.

Lemma strip_trimmed s : Py.trimmed (Py.strip s).
Proof.
  split; intros c Hc.
  - apply (lstrip_first s), rstrip_first, Hc.
  - by apply (rstrip_last (Py.lstrip s)).
Qed.

(** ** Cleaning a frame *)

Lemma select_lookup {A} (mask : list bool) (l : list A) j :
  pd.select mask l !! j = pd.nth_true mask j ≫= (l !!.).
Proof.
  revert l j. induction mask as [|b mask IH]; intros l j; [done|].
  destruct l as [|x l].
  { change (pd.select (b :: mask) []) with (@nil A).
    generalize (pd.nth_true (b :: mask) j). by intros [i|]. }
  simpl. destruct b.
  - destruct j as [|j]; [done|]. simpl. rewrite IH.
    by destruct (pd.nth_true mask j).
  - rewrite IH. by destruct (pd.nth_true mask j).
Qed.

Lemma nth_true_lookup mask j i : pd.nth_true mask j = Some i → mask !! i = Some true.
Proof.
  revert j i. induction mask as [|b mask IH]; intros j i; [done|].
  simpl. destruct b.
  - destruct j as [|j]; [by intros [= <-]|].
    destruct (pd.nth_true mask j) eqn:Hj; intros [= <-]. simpl. eauto.
  - destruct (pd.nth_true mask j) eqn:Hj; intros [= <-]. simpl. eauto.
Qed.

Lemma select_elem_of {A} (mask : list bool) (l : list A) i x :
  l !! i = Some x → mask !! i = Some true → x ∈ pd.select mask l.
Proof.
  revert l i. induction mask as [|b mask IH]; intros l i Hx Hm; [done|].
  destruct l as [|y l]; [done|]. destruct i as [|i]; simplify_eq/=.
  - left.
  - destruct b; [right|]; eauto.
Qed.

Lemma col_mask_lookup n rs i :
  i < n →
  pd.col_mask n rs !! i = Some (bool_decide (Exists (λ v, notna v) (pd.column_at i rs))).
Proof.
  intros Hi. unfold pd.col_mask.
  rewrite list_lookup_fmap, lookup_seq_lt; done.
Qed.

Lemma col_mask_lookup_true n rs i :
  pd.col_mask n rs !! i = Some true → Exists (λ v, notna v) (pd.column_at i rs).
Proof.
  intros Hi. assert (i < n) as Hlt.
  { apply lookup_lt_Some in Hi. unfold pd.col_mask in Hi.
    by rewrite length_fmap, length_seq in Hi. }
  rewrite col_mask_lookup in Hi; [|done].
  injection Hi as Hi. by apply bool_decide_eq_true in Hi.
Qed.

Lemma column_at_select mask rs j i :
  pd.nth_true mask j = Some i →
  pd.column_at j (pd.select mask <$> rs) = pd.column_at i rs.
Proof.
  intros Hj. unfold pd.column_at. rewrite <- list_fmap_compose.
  apply list_fmap_ext. intros _ r _. simpl.
  by rewrite select_lookup, Hj.
Qed.

Lemma dropna_rows_rect {L} (df : frame L) : rect df → rect (pd.dropna_rows df).
Proof.
  unfold rect. simpl. intros Hrect. apply Forall_forall.
  intros r [_ Hr]%list_elem_of_filter.
  by apply (proj1 (Forall_forall _ _) Hrect).
Qed.

Lemma dropna_rows_present {L} (df : frame L) :
  Forall (λ r, Exists (λ v, notna v) r) (rows (pd.dropna_rows df)).
Proof.
  apply Forall_forall. intros r Hr. simpl in Hr.
  by apply list_elem_of_filter in Hr as [Hr _].
Qed.

Lemma dropna_cols_rows_present {L} (df : frame L) :
  rect df →
  Forall (λ r, Exists (λ v, notna v) r) (rows df) →
  Forall (λ r, Exists (λ v, notna v) r) (rows (pd.dropna_cols df)).
Proof.
  intros Hrect Hrows. simpl. apply Forall_fmap, Forall_forall.
  intros r Hr. simpl.
  pose proof (proj1 (Forall_forall _ _) Hrows r Hr) as Hex.
  pose proof (proj1 (Forall_forall _ _) Hrect r Hr) as Hlen.
  apply Exists_exists in Hex as (v & Hv & Hna).
  apply list_elem_of_lookup in Hv as [i Hi].
  apply Exists_exists. exists v. split; [|done].
  apply (select_elem_of _ _ i); [done|].
  rewrite col_mask_lookup.
  - f_equal. apply bool_decide_eq_true, Exists_exists.
    exists v. split; [|done]. unfold pd.column_at.
    apply list_elem_of_fmap. exists r. rewrite Hi. by split.
  - apply lookup_lt_Some in Hi. simpl in Hlen. lia.
Qed.

Lemma dropna_cols_columns_present {L} (df : frame L) j :
  j < length (columns (pd.dropna_cols df)) →
  Exists (λ v, notna v) (pd.column_at j (rows (pd.dropna_cols df))).
Proof.
  simpl. intros Hj.
  apply lookup_lt_is_Some_2 in Hj as [c Hc].
  rewrite select_lookup in Hc.
  destruct (pd.nth_true _ j) as [i|] eqn:Hi; [|done].
  rewrite (column_at_select _ _ j i Hi).
  by apply (col_mask_lookup_true (length (columns df))), (nth_true_lookup _ j).
Qed.

Lemma read_parsed_rect w fp df : read_parsed w fp = Some df → rect df.
Proof.
  unfold read_parsed. repeat case_bool_decide; try done.
  - apply read_excel_rect.
  - apply read_excel_rect.
  - apply read_csv_rect.
Qed.

Lemma read_parsed_unsupported w fp :
  Py.lower (Path.splitext fp).2 ∉ [".csv"; ".xlsx"; ".xls"] → read_parsed w fp = None.
Proof.
  intros Hext. unfold read_parsed.
  rewrite bool_decide_eq_false_2.
  - rewrite bool_decide_eq_false_2; [done|].
    intros Heq. apply Hext. rewrite Heq. left.
  - intros Hin. apply Hext. by right.
Qed.

(** C5. A table that [read_file] returns has no row that is entirely
    empty, no column that is entirely empty, and column names that are text
    without white space at either end; a file with an extension other than
    [.csv], [.xlsx] and [.xls], a file that cannot be parsed and a file with
    no row left after cleaning give no table. *)
Theorem read_file_clean (w : World) (filepath : string) :
  (∀ df, read_file w filepath = Some df →
     Forall (λ r, Exists (λ v, notna v) r) (rows df) ∧
     (∀ j, j < length (columns df) →
        Exists (λ v, notna v) (pd.column_at j (rows df))) ∧
     Forall Py.trimmed (columns df)) ∧
  (Py.lower (Path.splitext filepath).2 ∉ [".csv"; ".xlsx"; ".xls"] →
     read_file w filepath = None) ∧
  (read_parsed w filepath = None → read_file w filepath = None) ∧
  (∀ raw, read_parsed w filepath = Some raw →
     rows (pd.dropna_rows raw) = [] → read_file w filepath = None).
Proof.
  split_and!.
  - intros df. unfold read_file.
    destruct (read_parsed w filepath) as [raw|] eqn:Hraw; [|done].
    destruct (pd.empty _); [done|]. intros [= <-]. split_and!.
    + apply dropna_cols_rows_present;
        eauto using dropna_rows_rect, read_parsed_rect, dropna_rows_present.
    + intros j Hj. simpl in Hj. rewrite length_fmap in Hj.
      by apply dropna_cols_columns_present.
    + simpl. apply Forall_fmap, Forall_forall. intros c _. apply strip_trimmed.
  - intros Hext. unfold read_file. by rewrite read_parsed_unsupported.
  - intros Hraw. unfold read_file. by rewrite Hraw.
  - intros raw Hraw Hrows. unfold read_file. rewrite Hraw.
    unfold pd.empty. rewrite bool_decide_eq_true_2; [done|].
    right. simpl in *. by rewrite Hrows.
Qed.

(** ** Rows kept once *)

Section keep_first.
Context {A : Type} `{EqDecision A}.
Implicit Types l seen : list A.

Lemma keep_first_go_length seen l : length (pd.keep_first_go seen l) ≤ length l.
Proof.
  revert seen. induction l as [|x l IH]; intros seen; simpl; [done|].
  case_decide; simpl; [specialize (IH seen)|specialize (IH (x :: seen))]; lia.
Qed.

Lemma keep_first_go_length_eq seen l :
  length (pd.keep_first_go seen l) = length l ↔ NoDup l ∧ ∀ x, x ∈ l → x ∉ seen.
Proof.
  revert seen. induction l as [|x l IH]; intros seen; simpl.
  { split; [|done]. intros _. split; [constructor|]. by intros x ?%elem_of_nil. }
  case_decide as Hx; simpl.
  - split.
    + pose proof (keep_first_go_length seen l). lia.
    + intros [_ Hseen]. destruct (Hseen x); [left|done].
  - rewrite Nat.succ_inj_wd, IH, NoDup_cons. split.
    + intros [Hl Hseen]. split_and!; [|done|].
      * intros Hxl. apply (Hseen x Hxl). left.
      * intros y [->|Hy]%elem_of_cons; [done|].
        intros Hys. apply (Hseen y Hy). by right.
    + intros [[Hxl Hl] Hseen]. split; [done|].
      intros y Hy [->|Hys]%elem_of_cons; [done|].
      apply (Hseen y); [by right|done].
Qed.

Lemma keep_first_length l : length (pd.keep_first l) ≤ length l.
Proof. apply keep_first_go_length. Qed.

Lemma keep_first_length_eq l : length (pd.keep_first l) = length l ↔ NoDup l.
Proof.
  unfold pd.keep_first. rewrite keep_first_go_length_eq. split; [by intros []|].
  intros Hl. split; [done|]. intros x _. apply not_elem_of_nil.
Qed.

End keep_first.

(** ** The events and the tables of the loop over the files *)

Lemma push_output_files job msg st : output_files (push job msg st) = output_files st.
Proof. unfold push. by destruct (_ !! job). Qed.

Lemma push_registered job msg st q :
  progress_queues st !! job = Some q →
  progress_queues (push job msg st) = <[job := q ++ [msg]]> (progress_queues st).
Proof. unfold push. by intros ->. Qed.

Lemma push_unregistered job msg st :
  progress_queues st !! job = None → push job msg st = st.
Proof. unfold push. by intros ->. Qed.

Lemma push_all_output_files job msgs st :
  output_files (push_all job msgs st) = output_files st.
Proof.
  revert st. induction msgs as [|msg msgs IH]; intros st; [done|].
  simpl. by rewrite IH, push_output_files.
Qed.

Lemma push_all_registered job msgs st q :
  progress_queues st !! job = Some q →
  progress_queues (push_all job msgs st) = <[job := q ++ msgs]> (progress_queues st).
Proof.
  revert st q. induction msgs as [|msg msgs IH]; intros st q Hq; simpl.
  - by rewrite app_nil_r, insert_id.
  - rewrite (IH _ (q ++ [msg])).
    + rewrite (push_registered _ _ _ q Hq), insert_insert_eq.
      by rewrite <- app_assoc.
    + rewrite (push_registered _ _ _ q Hq). apply lookup_insert_eq.
Qed.

Lemma push_all_unregistered job msgs st :
  progress_queues st !! job = None → push_all job msgs st = st.
Proof.
  induction msgs as [|msg msgs IH]; intros Hq; simpl; [done|].
  rewrite push_unregistered; auto.
Qed.

Lemma push_all_app job msgs1 msgs2 st :
  push_all job (msgs1 ++ msgs2) st = push_all job msgs2 (push_all job msgs1 st).
Proof. apply foldl_app. Qed.

Lemma progress_events_cons total idx fp rest :
  progress_events total idx (fp :: rest) =
  Progress idx total (Path.basename fp) :: progress_events total (idx + 1) rest.
Proof.
  unfold progress_events. simpl. rewrite Z.add_0_r. f_equal.
  apply imap_ext. intros i x _. simpl. f_equal. lia.
Qed.

Lemma read_all_eq w job total idx paths frames st :
  read_all w job total idx paths frames st =
  (frames ++ frames_of w paths, push_all job (progress_events total idx paths) st).
Proof.
  revert idx frames st. induction paths as [|fp rest IH]; intros idx frames st.
  { simpl. by rewrite app_nil_r. }
  rewrite progress_events_cons. simpl. rewrite IH. f_equal.
  unfold frames_of. simpl. destruct (read_file w fp); simpl; [|done].
  by rewrite <- app_assoc.
Qed.

Lemma compile_files_eq w paths acct job st :
  compile_files w paths acct job st =
  let st1 := push_all job (progress_events (Z.of_nat (length paths)) 1 paths) st in
  match frames_of w paths with
  | [] =>
      (push job (Error "No readable data found in the selected files.") st1,
       Returned None 0 0)
  | _ =>
      match pd.concat w (frames_of w paths) with
      | None => (st1, Raised)
      | Some combined =>
          let deduped := pd.drop_duplicates combined in
          let table := sort_by_first_datetime w deduped in
          let dupes := (len combined - len deduped)%Z in
          if can_write w (out_path w acct) table then
            (push job (Done (len table) dupes (Path.basename (out_path w acct)))
               (write_file (out_path w acct) table st1),
             Returned (Some (out_path w acct)) (len table) dupes)
          else (st1, Raised)
      end
  end.
Proof.
  unfold compile_files. rewrite read_all_eq. cbv zeta.
  destruct (frames_of w paths) as [|f fs]; [done|]. rewrite app_nil_l.
  destruct (pd.concat w (f :: fs)) as [combined|]; [|done].
  unfold to_csv. by destruct (can_write w _ _).
Qed.

(** A run in which [concat] and [to_csv] do not raise. *)
Lemma compile_files_merged w paths acct job st combined :
  pd.concat w (frames_of w paths) = Some combined →
  can_write w (out_path w acct)
    (sort_by_first_datetime w (pd.drop_duplicates combined)) = true →
  compile_files w paths acct job st =
  (push job
     (Done (len (sort_by_first_datetime w (pd.drop_duplicates combined)))
        (len combined - len (pd.drop_duplicates combined))
        (Path.basename (out_path w acct)))
     (write_file (out_path w acct)
        (sort_by_first_datetime w (pd.drop_duplicates combined))
        (push_all job (progress_events (Z.of_nat (length paths)) 1 paths) st)),
   Returned (Some (out_path w acct))
     (len (sort_by_first_datetime w (pd.drop_duplicates combined)))
     (len combined - len (pd.drop_duplicates combined))).
Proof.
  intros Hconcat Hwrite. rewrite compile_files_eq. cbv zeta.
  destruct (frames_of w paths) as [|f fs] eqn:Hframes; [done|].
  by rewrite Hconcat, Hwrite.
Qed.

(** A run that returns a path: neither [concat] nor [to_csv] raised. *)
Lemma compile_files_returned w paths acct job st st' p n dupes :
  compile_files w paths acct job st = (st', Returned (Some p) n dupes) →
  ∃ combined,
    pd.concat w (frames_of w paths) = Some combined ∧
    can_write w (out_path w acct)
      (sort_by_first_datetime w (pd.drop_duplicates combined)) = true ∧
    p = out_path w acct ∧
    n = len (sort_by_first_datetime w (pd.drop_duplicates combined)) ∧
    dupes = (len combined - len (pd.drop_duplicates combined))%Z ∧
    st' = push job (Done n dupes (Path.basename p))
            (write_file p (sort_by_first_datetime w (pd.drop_duplicates combined))
               (push_all job (progress_events (Z.of_nat (length paths)) 1 paths) st)).
Proof.
  rewrite compile_files_eq. cbv zeta.
  destruct (frames_of w paths) as [|f fs] eqn:Hframes; [done|].
  destruct (pd.concat w (f :: fs)) as [combined|] eqn:Hconcat; [|done].
  destruct (can_write w _ _) eqn:Hwrite; [|done].
  intros [= <- <- <- <-]. by exists combined.
Qed.

(** A run in which [to_csv] raises: the exception leaves [compile_files]
    after the progress events, and nothing is written. *)
Lemma compile_files_unwritable w paths acct job st combined :
  pd.concat w (frames_of w paths) = Some combined →
  can_write w (out_path w acct)
    (sort_by_first_datetime w (pd.drop_duplicates combined)) = false →
  compile_files w paths acct job st =
  (push_all job (progress_events (Z.of_nat (length paths)) 1 paths) st, Raised).
Proof.
  intros Hconcat Hwrite. rewrite compile_files_eq. cbv zeta.
  destruct (frames_of w paths) as [|f fs] eqn:Hframes; [done|].
  by rewrite Hconcat, Hwrite.
Qed.

(** ** Python strings: [in] *)

Lemma app_String a s1 s2 : String a s1 +:+ s2 = String a (s1 +:+ s2).
Proof. reflexivity. Qed.

Lemma app_empty s : "" +:+ s = s.
Proof. reflexivity. Qed.




(** ** The temporal sort *)

Lemma sort_values_columns w j df : columns (pd.sort_values w j df) = columns df.
Proof. done. Qed.

Lemma sort_values_perm w j df : rows (pd.sort_values w j df) ≡ₚ rows df.
Proof. apply sort_rows_perm. Qed.


Lemma try_sort_Some w col df sorted :
  try_sort w col df = Some sorted ↔
  ∃ j series,
    pd.positions col (columns df) = [j] ∧
    to_datetime w (pd.column_at j (rows df)) = Some series ∧
    sorted = pd.sort_values w j (pd.assign j series df).
Proof.
  unfold try_sort. split.
  - destruct (pd.positions col (columns df)) as [|j [|]] eqn:Hpos; try done.
    destruct (to_datetime w _) as [series|] eqn:Hts; [|done].
    intros [= <-]. by exists j, series.
  - intros (j & series & -> & -> & ->). done.
Qed.




(** The loop either leaves the table or returns what the first candidate
    that parses gives. *)
Lemma sort_loop_cases w df cols :
  (sort_loop w cols df = df ∧
   Forall (λ c, is_temporal c → try_sort w c df = None) cols) ∨
  (∃ pre col rest,
     cols = pre ++ col :: rest ∧
     Forall (λ c, is_temporal c → try_sort w c df = None) pre ∧
     is_temporal col ∧
     try_sort w col df = Some (sort_loop w cols df)).
Proof.
  induction cols as [|c cols IH]; simpl.
  { left. by split. }
  destruct (is_temporal c) eqn:Htemp.
  - destruct (try_sort w c df) as [sorted|] eqn:Htry.
    + right. exists [], c, cols. split_and!; [done|done|by rewrite Htemp|done].
    + destruct IH as [[Heq Hall]|(pre & col & rest & -> & Hpre & Hcol & Htry')].
      * left. split; [done|]. by constructor.
      * right. exists (c :: pre), col, rest. split_and!; [done| |done|done].
        by constructor.
  - destruct IH as [[Heq Hall]|(pre & col & rest & -> & Hpre & Hcol & Htry')].
    + left. split; [done|]. constructor; [|done]. by rewrite Htemp.
    + right. exists (c :: pre), col, rest. split_and!; [done| |done|done].
      constructor; [|done]. by rewrite Htemp.
Qed.







(** ** Tables stay rectangular *)

Lemma select_length {A B} (mask : list bool) (l : list A) (k : list B) :
  length l = length k → length (pd.select mask l) = length (pd.select mask k).
Proof.
  revert l k. induction mask as [|b mask IH]; intros [|x l] [|y k] Hlen;
    simplify_eq/=; try done.
  destruct b; simpl; auto.
Qed.

Lemma dropna_cols_rect {L} (df : frame L) : rect df → rect (pd.dropna_cols df).
Proof.
  unfold rect. simpl. intros Hrect. apply Forall_fmap.
  eapply Forall_impl; [exact Hrect|]. intros r Hr. simpl.
  by apply select_length.
Qed.

Lemma read_file_rect w fp df : read_file w fp = Some df → rect df.
Proof.
  unfold read_file.
  destruct (read_parsed w fp) as [raw|] eqn:Hraw; [|done].
  destruct (pd.empty _); [done|]. intros [= <-].
  pose proof (dropna_cols_rect _ (dropna_rows_rect _ (read_parsed_rect _ _ _ Hraw))) as Hrect.
  unfold rect in *. simpl in *. by rewrite length_fmap.
Qed.


Lemma keep_first_go_elem_of {A} `{EqDecision A} (seen l : list A) x :
  x ∈ pd.keep_first_go seen l → x ∈ l.
Proof.
  revert seen. induction l as [|y l IH]; intros seen; simpl; [done|].
  case_decide.
  - intros Hx. right. by eapply IH.
  - intros [->|Hx]%elem_of_cons; [left|right]. by eapply IH.
Qed.


Lemma coerce_length w rs : length (pd.coerce w rs) = length rs.
Proof. unfold pd.coerce. by rewrite length_fmap. Qed.


Lemma imap_fixed {A} (g : nat → A → A) (l : list A) :
  (∀ j v, v ∈ l → g j v = v) → imap g l = l.
Proof.
  revert g. induction l as [|x l IH]; intros g Hg; [done|].
  simpl. f_equal.
  - apply Hg. left.
  - apply IH. intros j v Hv. apply Hg. by right.
Qed.

(** Cells that [float64] holds as they are stay as they are, whatever dtype
    their columns are given. *)
Lemma coerce_fixed w rs :
  Forall (Forall (λ v, pd.astype_float64 v = v)) rs → pd.coerce w rs = rs.
Proof.
  intros Hfixed. unfold pd.coerce.
  generalize (is_float64 w rs). intros float.
  induction Hfixed as [|r rs' Hr _ IH]; [done|].
  simpl. f_equal; [|exact IH].
  apply imap_fixed. intros j v Hv.
  rewrite (proj1 (Forall_forall _ _) Hr v Hv). by destruct (float j).
Qed.

Lemma concat_Some w frames combined :
  pd.concat w frames = Some combined →
  frames ≠ [] ∧
  ((∃ cols, Forall (λ g, columns g = cols) frames ∧
            combined = Frame cols (pd.coerce w (mjoin (rows <$> frames)))) ∨
   (∃ cols, combined = Frame cols (pd.coerce w (mjoin (pd.realign cols <$> frames))))).
Proof.
  unfold pd.concat. destruct frames as [|f fs]; [done|].
  case_decide as Hsame; [|case_decide; [|done]]; intros [= <-]; (split; [done|]).
  - left. exists (columns f). split; [by constructor|done].
  - right. by eexists.
Qed.


Lemma positions_lt col cols j : pd.positions col cols = [j] → cols !! j = Some col.
Proof.
  intros Hpos. assert (j ∈ pd.positions col cols) as Hj by (rewrite Hpos; left).
  by apply list_elem_of_filter in Hj as [Hj _].
Qed.

(** ** Counting rows *)

Lemma concat_length w frames combined :
  pd.concat w frames = Some combined → length (rows combined) = total_rows frames.
Proof.
  unfold total_rows.
  intros [_ [(cols & _ & ->)|(cols & ->)]]%concat_Some; cbn [rows];
    rewrite coerce_length, length_join, <- list_fmap_compose; [done|].
  apply (f_equal sum_list), list_fmap_ext. intros _ g _. simpl.
  unfold pd.realign. by rewrite length_fmap.
Qed.

(** An integer of at most 53 bits is a float as it is. *)
Lemma float64_exact n : (Z.abs n ≤ 2 ^ 53)%Z → pd.float64 n = n.
Proof.
  intros Hn. unfold pd.float64.
  destruct (decide (Z.abs n = 2 ^ 53)%Z) as [Habs|Habs].
  - rewrite Habs. destruct (Z.abs_eq_or_opp n) as [Hn'|Hn'].
    + assert (n = 2 ^ 53)%Z as -> by lia. reflexivity.
    + assert (n = - 2 ^ 53)%Z as -> by lia. reflexivity.
  - assert (Z.log2 (Z.abs n) < 53)%Z as Hlog.
    { destruct (decide (Z.abs n = 0)%Z) as [->|Hzero]; [done|].
      apply Z.log2_lt_pow2; lia. }
    rewrite (proj2 (Z.leb_le _ _)); [done|lia].
Qed.

Example float64_odd : pd.float64 (2 ^ 53 + 1) = (2 ^ 53)%Z.
Proof. reflexivity. Qed.

Example float64_ties_to_even : pd.float64 (2 ^ 53 + 3) = (2 ^ 53 + 4)%Z.
Proof. reflexivity. Qed.

Example float64_negative : pd.float64 (- (2 ^ 53 + 1)) = (- 2 ^ 53)%Z.
Proof. reflexivity. Qed.

Example float64_largest_int64 : pd.float64 (2 ^ 63 - 1) = (2 ^ 63)%Z.
Proof. reflexivity. Qed.

Lemma assign_length w j df series :
  to_datetime w (pd.column_at j (rows df)) = Some series →
  length (rows (pd.assign j series df)) = length (rows df).
Proof.
  intros Hlen%to_datetime_length. simpl. rewrite length_zip_with.
  unfold pd.column_at in Hlen. rewrite length_fmap in Hlen. lia.
Qed.

Lemma try_sort_length w col df sorted :
  try_sort w col df = Some sorted → length (rows sorted) = length (rows df).
Proof.
  intros (j & series & _ & Hts & ->)%try_sort_Some.
  rewrite (sort_values_perm w j). by eapply assign_length.
Qed.

Lemma sort_by_first_datetime_length w df :
  length (rows (sort_by_first_datetime w df)) = length (rows df).
Proof.
  unfold sort_by_first_datetime.
  destruct (sort_loop_cases w df (columns df))
    as [[-> _]|(pre & col & rest & _ & _ & _ & Htry)]; [done|].
  by eapply try_sort_length.
Qed.

(** C6. The table that a batch is merged into has at most as many rows as
    the files that were read have together, and exactly as many if and only
    if no row occurs twice in their concatenation.  The concatenation is the
    one of pandas: it has a row for every row of every file that was read,
    and the columns in which [concat] turns integers into floats hold the
    rounded values. *)
Theorem compile_files_row_count (w : World) (file_paths : list string)
    (account_name job_id : string) (st st' : State)
    (path : string) (n dupes : Z) :
  compile_files w file_paths account_name job_id st
    = (st', Returned (Some path) n dupes) →
  ∃ combined table,
    pd.concat w (frames_of w file_paths) = Some combined ∧
    length (rows combined) = total_rows (frames_of w file_paths) ∧
    output_files st' !! path = Some table ∧
    n = len table ∧
    length (rows table) ≤ total_rows (frames_of w file_paths) ∧
    (length (rows table) = total_rows (frames_of w file_paths)
       ↔ NoDup (rows combined)).
Proof.
  intros (combined & Hconcat & _ & -> & -> & -> & ->)%compile_files_returned.
  exists combined, (sort_by_first_datetime w (pd.drop_duplicates combined)).
  rewrite push_output_files, sort_by_first_datetime_length.
  rewrite <- (concat_length _ _ _ Hconcat). simpl.
  split_and!; [done|done|apply lookup_insert_eq|done|..].
  - apply keep_first_length.
  - apply keep_first_length_eq.
Qed.

(** ** What a run writes and sends *)

Lemma frames_of_nil w paths :
  Forall (λ fp, read_file w fp = None) paths → frames_of w paths = [].
Proof.
  unfold frames_of. induction 1 as [|fp paths Hfp _ IH]; simpl; [done|].
  by rewrite Hfp.
Qed.

Lemma progress_events_not_error total idx paths :
  filter (λ msg, is_error msg) (progress_events total idx paths) = [].
Proof.
  revert idx. induction paths as [|fp paths IH]; intros idx; [done|].
  rewrite progress_events_cons, filter_cons_False; [apply IH|]. simpl. tauto.
Qed.

(** C2. When no file of the batch gives a table, [compile_files] pushes the
    progress events and then one error event, the only one, with the message
    "No readable data found in the selected files."; it returns the failure
    triple and writes no file.  The queue of the job, which [compile_route]
    registers before the run, receives exactly these events. *)
Theorem compile_files_no_readable_data (w : World) (file_paths : list string)
    (account_name job_id : string) (st : State) :
  Forall (λ fp, read_file w fp = None) file_paths →
  ∃ sent,
    sent = progress_events (Z.of_nat (length file_paths)) 1 file_paths
             ++ [Error "No readable data found in the selected files."] ∧
    filter (λ msg, is_error msg) sent
      = [Error "No readable data found in the selected files."] ∧
    compile_files w file_paths account_name job_id st
      = (push_all job_id sent st, Returned None 0 0) ∧
    output_files (push_all job_id sent st) = output_files st ∧
    (∀ q, progress_queues st !! job_id = Some q →
       progress_queues (push_all job_id sent st)
         = <[job_id := q ++ sent]> (progress_queues st)).
Proof.
  intros Hnone. eexists. split; [reflexivity|]. split_and!.
  - by rewrite filter_app, progress_events_not_error.
  - rewrite compile_files_eq, (frames_of_nil _ _ Hnone). cbv zeta.
    by rewrite push_all_app.
  - apply push_all_output_files.
  - intros q Hq. by apply push_all_registered.
Qed.



(** C1. The example of the specification: two files with the tables A and
    B give the table of the two distinct rows, the first occurrences in their
    order, and 2 as the number of duplicates, when the file of the output
    path can be written. *)
Theorem compile_files_example (w : World) (path_a path_b account_name job_id : string)
    (st : State) :
  read_file w path_a
    = Some (Frame ["symbol"; "qty"; "price"]
              [[Str "AAPL"; num 10; num 100];
               [Str "AAPL"; num 10; num 100]]) →
  read_file w path_b
    = Some (Frame ["symbol"; "qty"; "price"]
              [[Str "AAPL"; num 10; num 100];
               [Str "MSFT"; num 5; num 50]]) →
  can_write w (out_path w account_name)
    (Frame ["symbol"; "qty"; "price"]
       [[Str "AAPL"; num 10; num 100];
        [Str "MSFT"; num 5; num 50]]) = true →
  (compile_files w [path_a; path_b] account_name job_id st).2
    = Returned (Some (out_path w account_name)) 2 2 ∧
  output_files (compile_files w [path_a; path_b] account_name job_id st).1
    !! out_path w account_name
    = Some (Frame ["symbol"; "qty"; "price"]
              [[Str "AAPL"; num 10; num 100];
               [Str "MSFT"; num 5; num 50]]) ∧
  (∀ p, p ≠ out_path w account_name →
     output_files (compile_files w [path_a; path_b] account_name job_id st).1 !! p
     = output_files st !! p) ∧
  (∀ q, progress_queues st !! job_id = Some q →
     progress_queues (compile_files w [path_a; path_b] account_name job_id st).1
       !! job_id
     = Some (q ++ [Progress 1 2 (Path.basename path_a);
                   Progress 2 2 (Path.basename path_b);
                   Done 2 2 (Path.basename (out_path w account_name))])).
Proof.
  intros Ha Hb Hwrite.
  assert (frames_of w [path_a; path_b] = [example_A; example_B]) as Hframes.
  { unfold frames_of. simpl. by rewrite Ha, Hb. }
  assert (pd.concat w (frames_of w [path_a; path_b])
          = Some (Frame example_columns [AAPL; AAPL; AAPL; MSFT])) as Hconcat.
  { rewrite Hframes. unfold pd.concat.
    rewrite decide_True by (by repeat constructor).
    rewrite coerce_fixed; [done|].
    by apply (bool_decide_unpack _); vm_compute. }
  assert (pd.drop_duplicates (Frame example_columns [AAPL; AAPL; AAPL; MSFT])
          = Frame example_columns [AAPL; MSFT]) as Hdedup.
  { by vm_compute. }
  assert (sort_by_first_datetime w (Frame example_columns [AAPL; MSFT])
          = Frame example_columns [AAPL; MSFT]) as Hsort.
  { by vm_compute. }
  rewrite (compile_files_merged _ _ _ _ _ _ Hconcat); rewrite Hdedup, Hsort;
    [|exact Hwrite].
  cbn [fst snd].
  split_and!; [done|rewrite push_output_files; apply lookup_insert_eq|..].
  - intros p Hp. rewrite push_output_files. cbn [write_file output_files].
    rewrite lookup_insert_ne by done. by rewrite push_all_output_files.
  - intros q Hq.
    set (st1 := push_all job_id _ st).
    assert (progress_queues st1
            = <[job_id := q ++ [Progress 1 2 (Path.basename path_a);
                                Progress 2 2 (Path.basename path_b)]]>
                (progress_queues st)) as Hst1.
    { by apply push_all_registered. }
    rewrite (push_registered _ _ _
               (q ++ [Progress 1 2 (Path.basename path_a);
                      Progress 2 2 (Path.basename path_b)])).
    + rewrite lookup_insert_eq, <- app_assoc. done.
    + cbn [write_file progress_queues]. rewrite Hst1. apply lookup_insert_eq.
Qed.

(** C8, at a batch on which [pd.concat] raises: the two progress events have
    been sent, the exception leaves [compile_files], and no terminal event
    follows. *)
Theorem compile_files_raises_without_terminal_event :
  let run := compile_files (sheet_world repeated_label_files)
               ["uploads/a.csv"; "uploads/b.csv"] "Account_1" "job"
               (empty_state "job") in
  frames_of (sheet_world repeated_label_files) ["uploads/a.csv"; "uploads/b.csv"]
    = [Frame ["Entry time"; "Entry time"] [[num 1; num 2]];
       Frame ["Profit"] [[num 3]]] ∧
  run.2 = Raised ∧
  progress_queues run.1 !! "job"
    = Some [Progress 1 2 "a.csv"; Progress 2 2 "b.csv"] ∧
  output_files run.1 = ∅.
Proof. by vm_compute. Qed.

(** ** The output name *)

Lemma safe_char_kept c : safe_char c = if kept c then c else "_"%char.
Proof.
  unfold safe_char, kept. destruct (Py.isalnum c); [done|]. simpl.
  destruct (ascii_dec c " ") as [->|Hsp]; [done|].
  destruct (ascii_dec c "_") as [->|Hus]; [done|].
  destruct (ascii_dec c "-") as [->|Hhy]; [done|].
  rewrite bool_decide_eq_false_2; [done|].
  intros Hin. repeat (apply elem_of_cons in Hin as [?|Hin]; [done|]).
  by apply elem_of_nil in Hin.
Qed.

Lemma app_assoc_str s1 s2 s3 : (s1 +:+ s2) +:+ s3 = s1 +:+ (s2 +:+ s3).
Proof.
  induction s1 as [|a s1 IH]; [done|].
  rewrite !app_String. by rewrite IH.
Qed.

Lemma length_app_str s1 s2 :
  String.length (s1 +:+ s2) = String.length s1 + String.length s2.
Proof.
  induction s1 as [|a s1 IH]; [done|].
  rewrite app_String. simpl. by rewrite IH.
Qed.

Lemma chars_map_chars f s : Py.chars (map_chars f s) = f <$> Py.chars s.
Proof. induction s as [|c s IH]; simpl; [done|]. by rewrite IH. Qed.

Lemma chars_app s1 s2 : Py.chars (s1 +:+ s2) = Py.chars s1 ++ Py.chars s2.
Proof.
  induction s1 as [|c s1 IH]; [done|].
  rewrite app_String. simpl. by rewrite IH.
Qed.

Lemma lstrip_decompose s :
  ∃ pre, s = pre +:+ Py.lstrip s ∧ Forall (λ c, Py.isspace c) (Py.chars pre).
Proof.
  induction s as [|a s (pre & Hs & Hpre)]; simpl.
  { by exists "". }
  destruct (Py.isspace a) eqn:Ha.
  - exists (String a pre). split; [exact (f_equal (String a) Hs)|].
    simpl. constructor; [by rewrite Ha|done].
  - by exists "".
Qed.

Lemma rstrip_decompose s :
  ∃ post, s = Py.rstrip s +:+ post ∧ Forall (λ c, Py.isspace c) (Py.chars post).
Proof.
  induction s as [|a s (post & Hs & Hpost)]; simpl.
  { by exists "". }
  destruct (Py.rstrip s) as [|b r] eqn:Hr.
  - rewrite app_empty in Hs. subst post. destruct (Py.isspace a) eqn:Ha.
    + exists (String a s). split; [done|]. simpl.
      constructor; [by rewrite Ha|done].
    + by exists s.
  - exists post. split; [|done]. exact (f_equal (String a) Hs).
Qed.

Lemma strip_decompose s :
  ∃ pre post,
    s = pre +:+ Py.strip s +:+ post ∧
    Forall (λ c, Py.isspace c) (Py.chars pre) ∧
    Forall (λ c, Py.isspace c) (Py.chars post).
Proof.
  destruct (lstrip_decompose s) as (pre & Hs & Hpre).
  destruct (rstrip_decompose (Py.lstrip s)) as (post & Hl & Hpost).
  exists pre, post. split; [|done]. unfold Py.strip. by rewrite <- Hl.
Qed.

Lemma safe_name_chars label :
  Forall (λ c, kept c) (Py.chars (safe_name label)).
Proof.
  destruct (strip_decompose (map_chars safe_char label)) as (pre & post & Hs & _).
  assert (Forall (λ c, kept c) (Py.chars (map_chars safe_char label))) as Hall.
  { rewrite chars_map_chars. apply Forall_fmap, Forall_forall. intros c _.
    unfold compose. rewrite safe_char_kept.
    destruct (kept c) eqn:Hc; [by rewrite Hc|exact I]. }
  rewrite Hs, !chars_app, !Forall_app in Hall. apply Hall.
Qed.

Lemma rfind_from_absent c s i :
  Forall (λ a, a ≠ c) (Py.chars s) → Py.rfind_from c s i = (-1)%Z.
Proof.
  revert i. induction s as [|a s IH]; intros i Hs; simpl; [done|].
  simpl in Hs. apply Forall_cons in Hs as [Ha Hs]. rewrite (IH _ Hs).
  simpl. by apply Ascii.eqb_neq in Ha as ->.
Qed.

Lemma rfind_from_last c s1 s2 i :
  (0 ≤ i)%Z →
  Forall (λ a, a ≠ c) (Py.chars s2) →
  Py.rfind_from c (s1 +:+ String c s2) i = (i + Z.of_nat (String.length s1))%Z.
Proof.
  revert i. induction s1 as [|a s1 IH]; intros i Hi Hs2.
  - rewrite app_empty. simpl. rewrite (rfind_from_absent _ _ _ Hs2). simpl.
    rewrite Ascii.eqb_refl. lia.
  - rewrite app_String. simpl. rewrite IH; [|lia|done].
    rewrite (proj2 (Z.leb_le _ _)); lia.
Qed.

Lemma drop_str_app s1 s2 : Py.drop_str (String.length s1) (s1 +:+ s2) = s2.
Proof.
  induction s1 as [|a s1 IH]; [by destruct s2|].
  rewrite app_String. exact IH.
Qed.

Lemma last_char_snoc s c :
  Py.last_char s = Some c → ∃ s', s = s' +:+ String c "".
Proof.
  induction s as [|a s IH]; [done|]. simpl.
  destruct s as [|b s].
  - intros [= ->]. by exists "".
  - intros (s' & Hs')%IH. exists (String a s').
    exact (f_equal (String a) Hs').
Qed.

Lemma basename_after_slash s1 s2 :
  Forall (λ a, a ≠ "/"%char) (Py.chars s2) →
  Path.basename (s1 +:+ String "/" s2) = s2.
Proof.
  intros Hs2. unfold Path.basename, Py.rfind.
  rewrite rfind_from_last; [|done|done].
  replace (Z.to_nat (0 + Z.of_nat (String.length s1) + 1))
    with (String.length (s1 +:+ "/")).
  - change (String "/" s2) with ("/" +:+ s2).
    rewrite <- app_assoc_str. apply drop_str_app.
  - rewrite length_app_str. simpl. lia.
Qed.

Lemma basename_join dir name :
  Forall (λ a, a ≠ "/"%char) (Py.chars name) →
  Path.basename (Path.join dir name) = name.
Proof.
  intros Hname. unfold Path.join.
  assert (String.prefix "/" name = false) as ->.
  { destruct name as [|a name]; [done|]. simpl in Hname.
    apply Forall_cons in Hname as [Ha _].
    change (String.prefix "/" (String a name))
      with (if ascii_dec "/" a then String.prefix "" name else false).
    destruct (ascii_dec "/" a); [by subst|done]. }
  destruct (bool_decide (dir = "")) eqn:Hdir; simpl.
  - apply bool_decide_eq_true in Hdir as ->. simpl.
    unfold Path.basename, Py.rfind. by rewrite rfind_from_absent.
  - destruct (bool_decide (Py.last_char dir = Some "/"%char)) eqn:Hlast.
    + apply bool_decide_eq_true, last_char_snoc in Hlast as (dir' & ->).
      rewrite app_assoc_str. by apply basename_after_slash.
    + by apply basename_after_slash.
Qed.

Lemma kept_not_slash c : kept c → c ≠ "/"%char.
Proof. by intros Hc ->. Qed.

Lemma basename_out_path w label :
  Path.basename (out_path w label) = safe_name label +:+ "_compiled.csv".
Proof.
  apply basename_join. rewrite chars_app, Forall_app. split.
  - eapply Forall_impl; [apply safe_name_chars|]. apply kept_not_slash.
  - simpl. repeat constructor; done.
Qed.

(** C7. Sanitizing an account label keeps the alphanumeric characters, the
    spaces, the underscores and the hyphens, puts an underscore for every
    other character, and trims the result; the output file is named after
    it.  "My Account #1" becomes "My Account _1", in the file
    "My Account _1_compiled.csv". *)
Theorem safe_name_sanitizes (w : World) (account_name : string) :
  (∃ pre post,
     map_chars safe_char account_name = pre +:+ safe_name account_name +:+ post ∧
     Forall (λ c, Py.isspace c) (Py.chars pre) ∧
     Forall (λ c, Py.isspace c) (Py.chars post)) ∧
  Py.chars (map_chars safe_char account_name)
    = (λ c, if kept c then c else "_"%char) <$> Py.chars account_name ∧
  Py.trimmed (safe_name account_name) ∧
  Path.basename (out_path w account_name)
    = safe_name account_name +:+ "_compiled.csv" ∧
  safe_name "My Account #1" = "My Account _1" ∧
  Path.basename (out_path w "My Account #1") = "My Account _1_compiled.csv".
Proof.
  split_and!.
  - apply strip_decompose.
  - rewrite chars_map_chars. apply list_fmap_ext. intros _ c _.
    apply safe_char_kept.
  - apply strip_trimmed.
  - apply basename_out_path.
  - reflexivity.
  - by rewrite basename_out_path.
Qed.

(** When neither [pd.concat] nor [to_csv] raises, a job with a queue gets
    the progress events of its files, in order, and then one terminal
    event. *)
Lemma compile_files_events w paths acct job st q :
  progress_queues st !! job = Some q →
  (compile_files w paths acct job st).2 ≠ Raised →
  ∃ terminal,
    is_terminal terminal ∧
    progress_queues (compile_files w paths acct job st).1
      = <[job := q ++ progress_events (Z.of_nat (length paths)) 1 paths
                  ++ [terminal]]> (progress_queues st).
Proof.
  intros Hq. rewrite compile_files_eq. cbv zeta.
  set (sent := progress_events _ 1 paths).
  assert (∀ msg p table,
    progress_queues (push job msg (write_file p table (push_all job sent st)))
    = <[job := q ++ sent ++ [msg]]> (progress_queues st)) as Hdone.
  { intros msg p table. rewrite (push_registered _ _ _ (q ++ sent)).
    - cbn [write_file progress_queues].
      by rewrite (push_all_registered _ _ _ q Hq), insert_insert_eq, app_assoc.
    - cbn [write_file progress_queues].
      rewrite (push_all_registered _ _ _ q Hq). apply lookup_insert_eq. }
  destruct (frames_of w paths) as [|f fs].
  - intros _. eexists. split; [|cbn [fst]].
    2:{ rewrite (push_registered _ _ _ (q ++ sent)).
        - by rewrite (push_all_registered _ _ _ q Hq), insert_insert_eq, app_assoc.
        - rewrite (push_all_registered _ _ _ q Hq). apply lookup_insert_eq. }
    done.
  - destruct (pd.concat w (f :: fs)) as [combined|]; [|done].
    destruct (can_write w _ _); [|done].
    intros _. eexists. split; [|cbn [fst]; apply Hdone]. done.
Qed.

(** ** The pipeline on the sheets *)

Lemma detect_header_row_first_keyword_row_witness :
  detect_header_row trades_world "uploads/t.csv" = 2%Z.
Proof.
  apply (proj1 (proj2 (proj2 (detect_header_row_first_keyword_row trades_world
                                "uploads/t.csv")
                         (Frame [num 0; num 1; num 2] trades_sheet) eq_refl))
           2 [Str " Instrument "; Str "Entry Time"; Str "Profit"]).
  - reflexivity.
  - exists (Str "Profit"). split_and!; [|done|].
    + do 2 right. left.
    + apply (bool_decide_unpack _). vm_compute. exact I.
  - intros j row' v Hj Hrow' Hv _.
    assert (Forall (Forall (λ v, Py.lower (Py.strip (str trades_world v))
                                   ∉ HEADER_KEYWORDS))
              (take 2 trades_sheet)) as Hall.
    { apply (bool_decide_unpack _). vm_compute. exact I. }
    assert (take 2 trades_sheet !! j = Some row') as Hin.
    { rewrite lookup_take_lt by done. exact Hrow'. }
    apply list_elem_of_lookup_2 in Hin.
    exact (proj1 (Forall_forall _ _) (proj1 (Forall_forall _ _) Hall row' Hin) v Hv).
Defined.

Lemma read_file_clean_witness :
  read_file trades_world "uploads/t.csv" = Some trades_table ∧
  Forall (λ r, Exists (λ v, notna v) r) (rows trades_table) ∧
  (∀ j, j < length (columns trades_table) →
     Exists (λ v, notna v) (pd.column_at j (rows trades_table))) ∧
  Forall Py.trimmed (columns trades_table).
Proof.
  split; [vm_compute; reflexivity|].
  apply (proj1 (read_file_clean trades_world "uploads/t.csv") trades_table).
  vm_compute. reflexivity.
Defined.

Lemma compile_files_example_witness :
  (compile_files example_world ["uploads/A.csv"; "uploads/B.csv"]
     "Account_1" "job" (empty_state "job")).2
    = Returned (Some (out_path example_world "Account_1")) 2 2 ∧
  output_files (compile_files example_world ["uploads/A.csv"; "uploads/B.csv"]
                  "Account_1" "job" (empty_state "job")).1
    !! out_path example_world "Account_1"
    = Some (Frame ["symbol"; "qty"; "price"]
              [[Str "AAPL"; num 10; num 100];
               [Str "MSFT"; num 5; num 50]]).
Proof.
  pose proof (compile_files_example example_world "uploads/A.csv" "uploads/B.csv"
                "Account_1" "job" (empty_state "job")) as Hrun.
  destruct Hrun as (Hret & Hfile & _).
  - vm_compute. reflexivity.
  - vm_compute. reflexivity.
  - vm_compute. reflexivity.
  - split; [exact Hret|exact Hfile].
Defined.

Lemma compile_files_no_readable_data_witness :
  ∃ sent,
    sent = progress_events 2 1 ["uploads/x.csv"; "notes.txt"]
             ++ [Error "No readable data found in the selected files."] ∧
    filter (λ msg, is_error msg) sent
      = [Error "No readable data found in the selected files."] ∧
    compile_files (sheet_world []) ["uploads/x.csv"; "notes.txt"]
      "Account_1" "job" (empty_state "job")
      = (push_all "job" sent (empty_state "job"), Returned None 0 0) ∧
    output_files (push_all "job" sent (empty_state "job"))
      = output_files (empty_state "job") ∧
    (∀ q, progress_queues (empty_state "job") !! "job" = Some q →
       progress_queues (push_all "job" sent (empty_state "job"))
         = <[ "job" := q ++ sent ]> (progress_queues (empty_state "job"))).
Proof.
  apply (compile_files_no_readable_data (sheet_world [])
           ["uploads/x.csv"; "notes.txt"] "Account_1" "job" (empty_state "job")).
  repeat constructor.
Defined.


Lemma compile_files_row_count_witness :
  ∃ combined table,
    pd.concat example_world
      (frames_of example_world ["uploads/A.csv"; "uploads/B.csv"]) = Some combined ∧
    length (rows combined)
      = total_rows (frames_of example_world ["uploads/A.csv"; "uploads/B.csv"]) ∧
    output_files (compile_files example_world ["uploads/A.csv"; "uploads/B.csv"]
                    "Account_1" "job" (empty_state "job")).1
      !! out_path example_world "Account_1" = Some table ∧
    2%Z = len table ∧
    length (rows table)
      ≤ total_rows (frames_of example_world ["uploads/A.csv"; "uploads/B.csv"]) ∧
    (length (rows table)
       = total_rows (frames_of example_world ["uploads/A.csv"; "uploads/B.csv"])
     ↔ NoDup (rows combined)).
Proof.
  apply (compile_files_row_count example_world ["uploads/A.csv"; "uploads/B.csv"]
           "Account_1" "job" (empty_state "job") _ _ 2 2).
  vm_compute. reflexivity.
Defined.


(** ** Deduplication, once more *)

Lemma keep_first_go_NoDup {A} `{EqDecision A} (seen l : list A) :
  NoDup (pd.keep_first_go seen l) ∧
  ∀ x, x ∈ pd.keep_first_go seen l → x ∉ seen.
Proof.
  revert seen. induction l as [|x l IH]; intros seen; simpl.
  { split; [constructor|]. by intros x ?%elem_of_nil. }
  destruct (IH seen) as [Hnd Hseen]. destruct (IH (x :: seen)) as [Hnd' Hseen'].
  case_decide as Hx; [done|]. split.
  - constructor; [|done]. intros Hin. apply (Hseen' x Hin). left.
  - intros y [->|Hy]%elem_of_cons; [done|].
    intros Hys. apply (Hseen' y Hy). by right.
Qed.

Lemma drop_duplicates_NoDup df : NoDup (rows (pd.drop_duplicates df)).
Proof. apply keep_first_go_NoDup. Qed.

Lemma keep_first_NoDup_id {A} `{EqDecision A} (seen l : list A) :
  NoDup l → (∀ x, x ∈ l → x ∉ seen) → pd.keep_first_go seen l = l.
Proof.
  revert seen. induction l as [|x l IH]; intros seen Hnd Hseen; simpl; [done|].
  apply NoDup_cons in Hnd as [Hx Hnd].
  rewrite decide_False; [|apply Hseen; left]. f_equal. apply IH; [done|].
  intros y Hy [->|Hys]%elem_of_cons; [done|].
  apply (Hseen y); [by right|done].
Qed.

(** Deduplicating a deduplicated table changes nothing. *)
Lemma drop_duplicates_idempotent df :
  pd.drop_duplicates (pd.drop_duplicates df) = pd.drop_duplicates df.
Proof.
  unfold pd.drop_duplicates at 1 3. cbn [columns]. f_equal.
  apply keep_first_NoDup_id; [apply drop_duplicates_NoDup|].
  intros x _. apply not_elem_of_nil.
Qed.

(** ** Evaluations *)

Example splitext_csv :
  Path.splitext "uploads/ab.12/Trades.CSV" = ("uploads/ab.12/Trades", ".CSV").
Proof. reflexivity. Qed.

Example splitext_leading_dots : Path.splitext "uploads/..rc" = ("uploads/..rc", "").
Proof. reflexivity. Qed.

Example splitext_dot_in_directory :
  Path.splitext "up.loads/trades" = ("up.loads/trades", "").
Proof. reflexivity. Qed.

Example basename_upload : Path.basename "/srv/uploads/t.csv" = "t.csv".
Proof. reflexivity. Qed.

Example strip_inner_space : Py.strip "  Entry  Time  " = "Entry  Time".
Proof. reflexivity. Qed.

Example is_temporal_entry_time : is_temporal "Entry Time" = true.
Proof. reflexivity. Qed.

Example is_temporal_update : is_temporal "Last UPDATE" = true.
Proof. reflexivity. Qed.

Example is_temporal_price : is_temporal "price" = false.
Proof. reflexivity. Qed.

Example compile_files_nothing_readable :
  let run := compile_files (sheet_world []) ["uploads/x.csv"; "notes.txt"]
               "Account_1" "job" (empty_state "job") in
  run.2 = Returned None 0 0 ∧
  progress_queues run.1 !! "job"
    = Some [Progress 1 2 "x.csv"; Progress 2 2 "notes.txt";
            Error "No readable data found in the selected files."] ∧
  output_files run.1 = ∅.
Proof. by vm_compute. Qed.

Example compile_files_without_queue :
  let run := compile_files trades_world ["uploads/t.csv"] "Account_1" "other job"
               (empty_state "job") in
  progress_queues run.1 = progress_queues (empty_state "job").
Proof. by vm_compute. Qed.

Example compile_files_trades :
  let run := compile_files trades_world ["uploads/t.csv"; "uploads/gone.csv"]
               "My Account #1" "job" (empty_state "job") in
  run.2 = Returned (Some "/srv/app/output/My Account _1_compiled.csv") 2 1 ∧
  progress_queues run.1 !! "job"
    = Some [Progress 1 2 "t.csv"; Progress 2 2 "gone.csv";
            Done 2 1 "My Account _1_compiled.csv"] ∧
  output_files run.1 !! "/srv/app/output/My Account _1_compiled.csv"
    = Some trades_sorted.
Proof. by vm_compute. Qed.

(** A label of 250 characters gives a file name that is too long: [to_csv]
    raises after the progress events, and no terminal event follows. *)
Example compile_files_name_too_long :
  let run := compile_files example_world ["uploads/A.csv"; "uploads/B.csv"]
               (string_of_list_ascii (replicate 250 "a"%char)) "job"
               (empty_state "job") in
  run.2 = Raised ∧
  progress_queues run.1 !! "job"
    = Some [Progress 1 2 "A.csv"; Progress 2 2 "B.csv"] ∧
  output_files run.1 = ∅.
Proof. by vm_compute. Qed.

(** An integer of more than 53 bits, stacked on a column of floats, is
    rounded, and its row is then a duplicate of the row of that float. *)
Example compile_files_rounds_integers :
  let w := sheet_world
             [("uploads/i.csv", [[Str "Qty"]; [num (2 ^ 53 + 1)]]);
              ("uploads/f.csv", [[Str "Qty"]; [num (2 ^ 53)]; [frac 1 2]])] in
  let run := compile_files w ["uploads/i.csv"; "uploads/f.csv"] "Account_1" "job"
               (empty_state "job") in
  run.2 = Returned (Some "/srv/app/output/Account_1_compiled.csv") 2 1 ∧
  output_files run.1 !! "/srv/app/output/Account_1_compiled.csv"
    = Some (Frame ["Qty"] [[num (2 ^ 53)]; [frac 1 2]]).
Proof. by vm_compute. Qed.

(** In the world of sheets, rows with the same timestamp stay in the order
    they had. *)
Example sort_by_first_datetime_ties :
  sort_by_first_datetime trades_world
    (Frame ["Time"; "Id"]
       [[num 2; Str "c"]; [num 1; Str "a"]; [num 2; Str "d"]; [num 1; Str "b"]])
  = Frame ["Time"; "Id"]
      [[Timestamp 1; Str "a"]; [Timestamp 1; Str "b"];
       [Timestamp 2; Str "c"]; [Timestamp 2; Str "d"]].
Proof. by vm_compute. Qed.

(** In any world: when [concat] gives the column of an integer of more than
    53 bits and of the float next to it the dtype [float64], the two rows are
    the same row after it, and the run counts one row and one duplicate. *)
Lemma compile_files_float64_merges (w : World) (path_i path_f acct job : string)
    (st : State) :
  read_file w path_i = Some (Frame ["Qty"] [[num (2 ^ 53 + 1)]]) →
  read_file w path_f = Some (Frame ["Qty"] [[num (2 ^ 53)]]) →
  is_float64 w [[num (2 ^ 53 + 1)]; [num (2 ^ 53)]] 0 = true →
  can_write w (out_path w acct) (Frame ["Qty"] [[num (2 ^ 53)]]) = true →
  (compile_files w [path_i; path_f] acct job st).2
    = Returned (Some (out_path w acct)) 1 1.
Proof.
  intros Hi Hf Hfloat Hwrite.
  assert (pd.concat w (frames_of w [path_i; path_f])
          = Some (Frame ["Qty"] [[num (2 ^ 53)]; [num (2 ^ 53)]])) as Hconcat.
  { unfold frames_of. cbn [omap list_omap]. rewrite Hi, Hf.
    unfold pd.concat. rewrite decide_True by (by repeat constructor).
    unfold pd.coerce.
    change (mjoin (rows <$> [Frame ["Qty"] [[num (2 ^ 53 + 1)]];
                             Frame ["Qty"] [[num (2 ^ 53)]]]))
      with [[num (2 ^ 53 + 1)]; [num (2 ^ 53)]].
    cbn [fmap list_fmap imap columns]. rewrite Hfloat. by vm_compute. }
  assert (pd.drop_duplicates (Frame ["Qty"] [[num (2 ^ 53)]; [num (2 ^ 53)]])
          = Frame ["Qty"] [[num (2 ^ 53)]]) as Hdedup by (by vm_compute).
  assert (sort_by_first_datetime w (Frame ["Qty"] [[num (2 ^ 53)]])
          = Frame ["Qty"] [[num (2 ^ 53)]]) as Hsort by (by vm_compute).
  rewrite (compile_files_merged _ _ _ _ _ _ Hconcat); rewrite Hdedup, Hsort;
    [done|exact Hwrite].
Qed.

(** * More of the pipeline *)

(** ** Deduplication *)

Lemma keep_first_go_elem_of_iff {A} `{EqDecision A} (seen l : list A) x :
  x ∈ pd.keep_first_go seen l ↔ x ∈ l ∧ x ∉ seen.
Proof.
  split.
  - intros Hx. split; [by eapply keep_first_go_elem_of|].
    by apply (keep_first_go_NoDup seen l).
  - revert seen. induction l as [|y l IH]; intros seen [Hx Hseen]; simpl.
    { by apply elem_of_nil in Hx. }
    case_decide as Hy.
    + apply IH. split; [|done].
      apply elem_of_cons in Hx as [->|Hx]; [done|done].
    + destruct (decide (x = y)) as [->|Hxy]; [left|].
      right. apply IH. split.
      * apply elem_of_cons in Hx as [->|Hx]; [done|done].
      * intros [->|Hxs]%elem_of_cons; done.
Qed.

Lemma keep_first_go_sublist {A} `{EqDecision A} (seen l : list A) :
  pd.keep_first_go seen l `sublist_of` l.
Proof.
  revert seen. induction l as [|x l IH]; intros seen; simpl; [done|].
  case_decide; [by apply sublist_cons|by apply sublist_skip].
Qed.

Lemma keep_first_go_app {A} `{EqDecision A} (seen l1 l2 : list A) :
  pd.keep_first_go seen (l1 ++ l2)
  = pd.keep_first_go seen l1
      ++ pd.keep_first_go (reverse (pd.keep_first_go seen l1) ++ seen) l2.
Proof.
  revert seen. induction l1 as [|x l1 IH]; intros seen; simpl; [done|].
  case_decide as Hx; [apply IH|].
  rewrite IH. simpl. f_equal. f_equal.
  by rewrite reverse_cons, <- app_assoc.
Qed.

(** X1. The deduplicated table has the labels of the table, no row twice
    and exactly the rows of the table, in the order they have there;
    deduplicating it again changes nothing. *)
Theorem drop_duplicates_rows (df : DataFrame) :
  columns (pd.drop_duplicates df) = columns df ∧
  NoDup (rows (pd.drop_duplicates df)) ∧
  (∀ r, r ∈ rows (pd.drop_duplicates df) ↔ r ∈ rows df) ∧
  rows (pd.drop_duplicates df) `sublist_of` rows df ∧
  pd.drop_duplicates (pd.drop_duplicates df) = pd.drop_duplicates df.
Proof.
  split_and!; [done|apply drop_duplicates_NoDup|..].
  - intros r. simpl. unfold pd.keep_first.
    rewrite keep_first_go_elem_of_iff. split; [by intros []|].
    intros Hr. split; [done|apply not_elem_of_nil].
  - apply keep_first_go_sublist.
  - apply drop_duplicates_idempotent.
Qed.

(** X2. It is the first of equal rows that stays: a row added at the end
    of a table is added at the end of the deduplicated table when no equal
    row is in the table, and left out when one is. *)
Theorem drop_duplicates_last_row (cols : list string) (rs : list (list cell))
    (r : list cell) :
  pd.drop_duplicates (Frame cols (rs ++ [r]))
  = Frame cols (rows (pd.drop_duplicates (Frame cols rs))
                  ++ (if decide (r ∈ rs) then [] else [r])).
Proof.
  unfold pd.drop_duplicates. cbn [columns rows]. f_equal.
  unfold pd.keep_first. rewrite keep_first_go_app. f_equal. simpl.
  rewrite app_nil_r.
  assert (r ∈ reverse (pd.keep_first_go [] rs) ↔ r ∈ rs) as Hr.
  { rewrite elem_of_reverse, keep_first_go_elem_of_iff. split; [by intros []|].
    intros Hin. split; [done|apply not_elem_of_nil]. }
  destruct (decide (r ∈ rs)) as [Hin|Hin].
  - rewrite decide_True; [done|by apply Hr].
  - rewrite decide_False; [done|by rewrite Hr].
Qed.

(** ** What a run returns, sends and writes *)

Lemma read_file_nonempty w fp df :
  read_file w fp = Some df → rows df ≠ [] ∧ columns df ≠ [].
Proof.
  unfold read_file. destruct (read_parsed w fp) as [raw|]; [|done].
  destruct (pd.empty _) eqn:Hempty; [done|]. intros [= <-].
  unfold pd.empty in Hempty. apply bool_decide_eq_false in Hempty.
  split; intros Hnil; apply Hempty; [by right|by left].
Qed.

Lemma frames_of_total_rows w paths f fs :
  frames_of w paths = f :: fs → 1 ≤ total_rows (frames_of w paths).
Proof.
  intros Hframes.
  assert (f ∈ frames_of w paths) as Hf by (rewrite Hframes; left).
  apply list_elem_of_omap in Hf as (fp & _ & Hfp).
  apply read_file_nonempty in Hfp as [Hrows _].
  rewrite Hframes. unfold total_rows. simpl.
  destruct (rows f); [done|simpl; lia].
Qed.

Lemma keep_first_nonempty {A} `{EqDecision A} (l : list A) :
  1 ≤ length l → 1 ≤ length (pd.keep_first l).
Proof.
  destruct l as [|x l]; simpl; [lia|]. intros _.
  unfold pd.keep_first. cbn [pd.keep_first_go].
  destruct (decide (x ∈ [])) as [Hx|_]; [by apply elem_of_nil in Hx|].
  simpl. lia.
Qed.

(** X3. A run that returns a path has written at least one row, and the
    rows it counts and the duplicates it counts add up to the rows of the
    files that were read. *)
Theorem compile_files_counts (w : World) (file_paths : list string)
    (account_name job_id : string) (st st' : State)
    (path : string) (n dupes : Z) :
  compile_files w file_paths account_name job_id st
    = (st', Returned (Some path) n dupes) →
  ((n + dupes = Z.of_nat (total_rows (frames_of w file_paths)))%Z ∧
   (1 ≤ n)%Z ∧ (0 ≤ dupes)%Z).
Proof.
  intros (combined & Hconcat & _ & -> & -> & -> & ->)%compile_files_returned.
  unfold len. rewrite sort_by_first_datetime_length.
  pose proof (concat_length _ _ _ Hconcat) as Hlen.
  pose proof (keep_first_length (rows combined)) as Hle.
  assert (1 ≤ total_rows (frames_of w file_paths)) as Hone.
  { destruct (frames_of w file_paths) as [|f fs] eqn:Hframes; [done|].
    rewrite <- Hframes. by eapply frames_of_total_rows. }
  pose proof (keep_first_nonempty (rows combined)) as Hpos.
  simpl. lia.
Qed.

Lemma push_lookup_ne job job' msg st :
  job' ≠ job →
  progress_queues (push job msg st) !! job' = progress_queues st !! job'.
Proof.
  intros Hne. unfold push. destruct (_ !! job) eqn:Hq; [|done].
  simpl. by rewrite lookup_insert_ne.
Qed.

Lemma push_dom job msg st :
  dom (progress_queues (push job msg st)) = dom (progress_queues st).
Proof.
  unfold push. destruct (_ !! job) as [q|] eqn:Hq; [|done]. simpl.
  by apply dom_insert_lookup_L.
Qed.

Lemma push_all_lookup_ne job job' msgs st :
  job' ≠ job →
  progress_queues (push_all job msgs st) !! job' = progress_queues st !! job'.
Proof.
  intros Hne. revert st. induction msgs as [|msg msgs IH]; intros st; [done|].
  simpl. by rewrite IH, push_lookup_ne.
Qed.

Lemma push_all_dom job msgs st :
  dom (progress_queues (push_all job msgs st)) = dom (progress_queues st).
Proof.
  revert st. induction msgs as [|msg msgs IH]; intros st; [done|].
  simpl. by rewrite IH, push_dom.
Qed.

Lemma push_write_file job msg p table st :
  push job msg (write_file p table st) = write_file p table (push job msg st).
Proof. unfold push, write_file. simpl. by destruct (_ !! job). Qed.

Lemma push_all_write_file job msgs p table st :
  push_all job msgs (write_file p table st) = write_file p table (push_all job msgs st).
Proof.
  revert st. induction msgs as [|msg msgs IH]; intros st; [done|].
  simpl. by rewrite push_write_file, IH.
Qed.

(** The state after a run: events pushed, and the output file written when
    the run came as far as that. *)
Lemma compile_files_state w paths acct job st :
  ∃ msgs,
    (compile_files w paths acct job st).1 = push_all job msgs st ∨
    ∃ table,
      (compile_files w paths acct job st).1
      = push_all job msgs
          (write_file (out_path w acct) table st).
Proof.
  rewrite compile_files_eq. cbv zeta.
  set (sent := progress_events _ 1 paths).
  destruct (frames_of w paths) as [|f fs].
  - exists (sent ++ [Error "No readable data found in the selected files."]).
    left. by rewrite push_all_app.
  - destruct (pd.concat w (f :: fs)) as [combined|].
    + destruct (can_write w _ _).
      * eexists (sent ++ [_]). right. eexists. cbn [fst].
        by rewrite push_all_app, push_all_write_file.
      * exists sent. by left.
    + exists sent. by left.
Qed.

(** X4. A run leaves the queues of the other jobs as they are, registers
    and removes no queue, and leaves every file of the output directory but
    its own as it is. *)
Theorem compile_files_touches_only_its_job (w : World) (file_paths : list string)
    (account_name job_id : string) (st : State) :
  (∀ other, other ≠ job_id →
     progress_queues (compile_files w file_paths account_name job_id st).1 !! other
     = progress_queues st !! other) ∧
  dom (progress_queues (compile_files w file_paths account_name job_id st).1)
    = dom (progress_queues st) ∧
  (∀ p, p ≠ out_path w account_name →
     output_files (compile_files w file_paths account_name job_id st).1 !! p
     = output_files st !! p).
Proof.
  destruct (compile_files_state w file_paths account_name job_id st)
    as (msgs & [->|(table & ->)]); split_and!.
  - intros other Hne. by apply push_all_lookup_ne.
  - apply push_all_dom.
  - intros p _. by rewrite push_all_output_files.
  - intros other Hne. by rewrite push_all_lookup_ne.
  - by rewrite push_all_dom.
  - intros p Hp. rewrite push_all_output_files. simpl.
    by rewrite lookup_insert_ne.
Qed.

Lemma compile_files_returned_queue (w : World)
    (file_paths : list string) (account_name job_id : string) (st st' : State)
    (q : list event) (path : option string) (n dupes : Z) :
  progress_queues st !! job_id = Some q →
  compile_files w file_paths account_name job_id st = (st', Returned path n dupes) →
  progress_queues st' !! job_id
  = Some (q ++ progress_events (Z.of_nat (length file_paths)) 1 file_paths
            ++ [match path with
                | Some p => Done n dupes (Path.basename p)
                | None => Error "No readable data found in the selected files."
                end]).
Proof.
  intros Hq. rewrite compile_files_eq. cbv zeta.
  set (sent := progress_events _ 1 file_paths).
  assert (∀ msg st1,
    progress_queues st1 = progress_queues (push_all job_id sent st) →
    progress_queues (push job_id msg st1) !! job_id = Some (q ++ sent ++ [msg]))
    as Hpush.
  { intros msg st1 Hst1. rewrite (push_registered _ _ _ (q ++ sent)).
    - by rewrite lookup_insert_eq, app_assoc.
    - rewrite Hst1, (push_all_registered _ _ _ q Hq). apply lookup_insert_eq. }
  destruct (frames_of w file_paths) as [|f fs].
  - intros [= <- <- <- <-]. by apply Hpush.
  - destruct (pd.concat w (f :: fs)) as [combined|]; [|done].
    destruct (can_write w _ _); [|done].
    intros [= <- <- <- <-]. by apply Hpush.
Qed.

(** X5. The terminal event of a run says what the run returns: for a job
    with a queue, a run that returns a path sends the progress events and
    then [Done] with the returned counts and the name of the returned path,
    and a run that returns no path sends them and then the error. *)
Theorem compile_files_terminal_event_matches_result (w : World)
    (file_paths : list string) (account_name job_id : string) (st st' : State)
    (q : list event) (path : option string) (n dupes : Z) :
  progress_queues st !! job_id = Some q →
  compile_files w file_paths account_name job_id st = (st', Returned path n dupes) →
  progress_queues st' !! job_id
  = Some (q ++ progress_events (Z.of_nat (length file_paths)) 1 file_paths
            ++ [match path with
                | Some p => Done n dupes (Path.basename p)
                | None => Error "No readable data found in the selected files."
                end]).
Proof. apply compile_files_returned_queue. Qed.

(** X6. The output file is named after the sanitized label only: two runs
    that return a path, under labels with the same sanitized name, return
    the same path, and after the second the output directory is the one
    before the first with one file at that path, a table of as many rows as
    the second run returned: nothing is left of what the first wrote. *)
Theorem compile_files_latest_wins (w : World) (paths1 paths2 : list string)
    (account1 account2 job1 job2 : string) (st0 st1 st2 : State)
    (p1 p2 : string) (n1 d1 n2 d2 : Z) :
  safe_name account1 = safe_name account2 →
  compile_files w paths1 account1 job1 st0 = (st1, Returned (Some p1) n1 d1) →
  compile_files w paths2 account2 job2 st1 = (st2, Returned (Some p2) n2 d2) →
  p1 = p2 ∧
  ∃ table,
    output_files st2 = <[p2 := table]> (output_files st0) ∧
    len table = n2.
Proof.
  intros Hsafe
    (combined1 & _ & _ & -> & _ & _ & ->)%compile_files_returned
    (combined2 & _ & _ & -> & -> & _ & ->)%compile_files_returned.
  assert (out_path w account1 = out_path w account2) as Hpath.
  { unfold out_path. by rewrite Hsafe. }
  split; [done|]. eexists. split; [|reflexivity].
  repeat (rewrite ?push_output_files, ?push_all_output_files;
          cbn [write_file output_files]).
  by rewrite Hpath, insert_insert_eq.
Qed.

(** ** What [read_file] keeps *)

Lemma select_keeps_present (mask : list bool) (r : list cell) :
  (∀ i v, r !! i = Some v → notna v → mask !! i = Some true) →
  filter (λ v, notna v) (pd.select mask r) = filter (λ v, notna v) r.
Proof.
  revert r. induction mask as [|b mask IH]; intros r Hmask.
  - destruct r as [|x r]; [done|]. simpl.
    induction r as [|y r IHr] in x, Hmask |- *.
    + rewrite filter_cons_False; [done|]. intros Hx. by specialize (Hmask 0 x eq_refl Hx).
    + rewrite filter_cons_False.
      * apply IHr. intros i v Hi Hv. by specialize (Hmask (S i) v Hi Hv).
      * intros Hx. by specialize (Hmask 0 x eq_refl Hx).
  - destruct r as [|x r]; [done|]. simpl.
    assert (filter (λ v, notna v) (pd.select mask r) = filter (λ v, notna v) r) as Hrest.
    { apply IH. intros i v Hi Hv. apply (Hmask (S i) v Hi Hv). }
    destruct b.
    + by rewrite !filter_cons, Hrest.
    + rewrite Hrest, (filter_cons_False _ x); [done|].
      intros Hx. by specialize (Hmask 0 x eq_refl Hx).
Qed.

Lemma col_mask_present n rs r i v :
  r ∈ rs → i < n → r !! i = Some v → notna v →
  pd.col_mask n rs !! i = Some true.
Proof.
  intros Hr Hi Hv Hna. rewrite col_mask_lookup by done. f_equal.
  apply bool_decide_eq_true, Exists_exists. exists v. split; [|done].
  unfold pd.column_at. apply list_elem_of_fmap. exists r. rewrite Hv. by split.
Qed.

Lemma present_rows (rs : list (list cell)) :
  filter (λ vs, vs ≠ []) (filter (λ v, notna v) <$> rs)
  = filter (λ v, notna v) <$> filter (λ r, Exists (λ v, notna v) r) rs.
Proof.
  induction rs as [|r rs IH]; [done|]. rewrite fmap_cons, !filter_cons, IH.
  assert (filter (λ v, notna v) r ≠ [] ↔ Exists (λ v, notna v) r) as Hr.
  { rewrite Exists_exists. split.
    - destruct (filter _ r) as [|v vs] eqn:Hf; [done|]. intros _.
      assert (v ∈ filter (λ v, notna v) r) as Hv by (rewrite Hf; left).
      apply list_elem_of_filter in Hv as [Hna Hv]. eauto.
    - intros (v & Hv & Hna) Hnil.
      assert (v ∈ filter (λ v, notna v) r) as Hin by (by apply list_elem_of_filter).
      rewrite Hnil in Hin. by apply elem_of_nil in Hin. }
  destruct (decide (Exists (λ v, notna v) r)) as [Hex|Hex].
  - rewrite decide_True by (by apply Hr). done.
  - rewrite decide_False by (by rewrite Hr). done.
Qed.

(** X7. A table that [read_file] returns is rectangular and has at least
    one row and one column. *)
Theorem read_file_rectangular_nonempty (w : World) (filepath : string) (df : DataFrame) :
  read_file w filepath = Some df →
  rect df ∧ rows df ≠ [] ∧ columns df ≠ [].
Proof.
  intros Hdf. split; [by eapply read_file_rect|by eapply read_file_nonempty].
Qed.

(** X8. Cleaning loses no value: row by row, in order, the present values
    of the returned table are the present values of the parsed file, for the
    rows that have one. *)
Theorem read_file_keeps_present_values (w : World) (filepath : string)
    (raw : frame cell) (df : DataFrame) :
  read_parsed w filepath = Some raw →
  read_file w filepath = Some df →
  filter (λ v, notna v) <$> rows df
  = filter (λ vs, vs ≠ []) (filter (λ v, notna v) <$> rows raw).
Proof.
  intros Hraw. unfold read_file. rewrite Hraw.
  destruct (pd.empty _); [done|]. intros [= <-].
  rewrite present_rows. cbn [rows strip_columns pd.dropna_cols].
  rewrite <- list_fmap_compose. apply list_fmap_ext.
  intros _ r Hr%list_elem_of_lookup_2. simpl.
  apply select_keeps_present. intros i v Hi Hna.
  apply (col_mask_present _ _ r i v); [done| |done|done].
  pose proof (dropna_rows_rect _ (read_parsed_rect _ _ _ Hraw)) as Hrect.
  pose proof (proj1 (Forall_forall _ _) Hrect r Hr) as Hlen. simpl in Hlen.
  apply lookup_lt_Some in Hi. lia.
Qed.

(** ** A header row that was found *)

(** X9. A result other than 0 is the index of a row of the frame that the
    read with [header=None] and [nrows=30] gave: that read did not raise, the
    row holds a keyword, and no row before it holds one. *)
Theorem detect_header_row_nonzero (w : World) (filepath : string) :
  detect_header_row w filepath ≠ 0%Z →
  ∃ raw row,
    read_raw w filepath = Some raw ∧
    length (rows raw) ≤ 30 ∧
    rows raw !! Z.to_nat (detect_header_row w filepath) = Some row ∧
    is_header w row ∧
    ∀ j row', j < Z.to_nat (detect_header_row w filepath) →
      rows raw !! j = Some row' → ¬ is_header w row'.
Proof.
  unfold detect_header_row.
  destruct (read_raw w filepath) as [raw|] eqn:Hraw; [|done].
  destruct (list_find _ _) as [[i row]|] eqn:Hfind; [|done]. intros _.
  apply list_find_Some in Hfind as (Hrow & Hhead & Hfirst).
  exists raw, row. rewrite Nat2Z.id. split_and!; [done| |done|done|].
  - by eapply read_raw_nrows.
  - intros j row' Hj Hrow'. by apply (Hfirst j row').
Qed.

(** ** The sanitized name and the output path *)

Lemma lstrip_trimmed_id s :
  (∀ c, Py.first_char s = Some c → Py.isspace c = false) → Py.lstrip s = s.
Proof. destruct s as [|a s]; [done|]. simpl. intros Ha. by rewrite (Ha a). Qed.

Lemma rstrip_trimmed_id s :
  (∀ c, Py.last_char s = Some c → Py.isspace c = false) → Py.rstrip s = s.
Proof.
  induction s as [|a s IH]; [done|]. intros Hlast. simpl.
  destruct s as [|b s].
  - simpl. by rewrite (Hlast a).
  - rewrite IH; [done|]. intros c Hc. by apply Hlast.
Qed.

Lemma strip_trimmed_id s : Py.trimmed s → Py.strip s = s.
Proof.
  intros [Hfirst Hlast]. unfold Py.strip.
  rewrite (lstrip_trimmed_id _ Hfirst). by apply rstrip_trimmed_id.
Qed.

Lemma map_chars_kept_id s :
  Forall (λ c, kept c) (Py.chars s) → map_chars safe_char s = s.
Proof.
  induction s as [|a s IH]; [done|]. simpl. intros [Ha Hs]%Forall_cons.
  rewrite IH by done. rewrite safe_char_kept.
  by destruct (kept a).
Qed.

(** X10. Sanitizing a sanitized label changes nothing. *)
Theorem safe_name_idempotent (account_name : string) :
  safe_name (safe_name account_name) = safe_name account_name.
Proof.
  unfold safe_name at 1.
  rewrite (map_chars_kept_id _ (safe_name_chars account_name)).
  apply strip_trimmed_id, strip_trimmed.
Qed.

Lemma last_char_app s1 c s2 :
  Py.last_char (s1 +:+ String c s2) = Py.last_char (String c s2).
Proof.
  induction s1 as [|a s1 IH]; [done|]. rewrite app_String.
  change (Py.last_char (String a (s1 +:+ String c s2)))
    with (match s1 +:+ String c s2 with
          | "" => Some a
          | _ => Py.last_char (s1 +:+ String c s2)
          end).
  rewrite IH. by destruct s1.
Qed.

Lemma join_relative dir name :
  String.prefix "/" name = false →
  dir ≠ "" →
  Py.last_char dir ≠ Some "/"%char →
  Path.join dir name = dir +:+ "/" +:+ name.
Proof.
  intros Hname Hdir Hlast. unfold Path.join. rewrite Hname.
  by rewrite !bool_decide_eq_false_2.
Qed.

Lemma OUTPUT_DIR_shape w :
  OUTPUT_DIR w ≠ "" ∧ Py.last_char (OUTPUT_DIR w) = Some "t"%char.
Proof.
  unfold OUTPUT_DIR, Path.join.
  change (String.prefix "/" "output") with false. cbv iota.
  destruct (_ || _).
  - split; [by destruct (BASE_DIR w)|]. apply (last_char_app _ "o" "utput").
  - split; [by destruct (BASE_DIR w)|].
    change (BASE_DIR w +:+ "/" +:+ "output")
      with (BASE_DIR w +:+ String "/" "output").
    by rewrite last_char_app.
Qed.

(** X11. The output file lies directly in the output directory, whatever
    the label is: its path is the directory, a slash and a name without a
    slash. *)
Theorem out_path_in_output_dir (w : World) (account_name : string) :
  out_path w account_name
  = OUTPUT_DIR w +:+ "/" +:+ safe_name account_name +:+ "_compiled.csv" ∧
  Forall (λ c, c ≠ "/"%char)
    (Py.chars (safe_name account_name +:+ "_compiled.csv")).
Proof.
  assert (Forall (λ c, c ≠ "/"%char)
            (Py.chars (safe_name account_name +:+ "_compiled.csv"))) as Hname.
  { rewrite chars_app, Forall_app. split.
    - eapply Forall_impl; [apply safe_name_chars|]. apply kept_not_slash.
    - simpl. repeat constructor; done. }
  split; [|done]. destruct (OUTPUT_DIR_shape w) as [Hdir Hlast].
  apply join_relative; [|done|by rewrite Hlast].
  destruct (safe_name account_name +:+ "_compiled.csv") as [|a name]; [done|].
  simpl in Hname. apply Forall_cons in Hname as [Ha _].
  change (String.prefix "/" (String a name))
    with (if ascii_dec "/" a then String.prefix "" name else false).
  destruct (ascii_dec "/" a); [by subst|done].
Qed.

(** ** The shape of the sorted table *)

Lemma try_sort_rect w col df sorted :
  rect df → try_sort w col df = Some sorted → rect sorted.
Proof.
  intros Hrect (j & series & _ & _ & ->)%try_sort_Some.
  unfold rect. rewrite sort_values_columns, (sort_values_perm w j). simpl.
  apply Forall_forall. intros r' [i Hi]%list_elem_of_lookup.
  apply lookup_zip_with_Some in Hi as (r & t & -> & Hr & _).
  rewrite length_insert.
  apply list_elem_of_lookup_2 in Hr.
  apply (proj1 (Forall_forall _ _) Hrect r Hr).
Qed.

(** X12. The sort step keeps the labels and the number of rows of a table,
    and a rectangular table stays rectangular. *)
Theorem sort_by_first_datetime_shape (w : World) (df : DataFrame) :
  columns (sort_by_first_datetime w df) = columns df ∧
  length (rows (sort_by_first_datetime w df)) = length (rows df) ∧
  (rect df → rect (sort_by_first_datetime w df)).
Proof.
  split_and!; [|apply sort_by_first_datetime_length|];
    unfold sort_by_first_datetime;
    destruct (sort_loop_cases w df (columns df))
      as [[-> _]|(pre & col & rest & _ & _ & _ & Htry)]; try done.
  - by apply try_sort_Some in Htry as (j & series & _ & _ & ->).
  - intros Hrect. by eapply try_sort_rect.
Qed.

(** * The routes *)

(** ** Requests that are refused *)

(** X13. A request for a session that does not exist is answered with the
    error "Invalid session" by every route of a session, and a compile
    request for a session with no staged file with "No files staged"; the
    store is left as it is, no identifier is drawn and no queue is
    registered. *)
Theorem refused_requests_change_nothing (w : World) (uuid4 : nat → string)
    (sid : string) (sv : Server) :
  (sessions sv !! sid = None →
     (∀ uploaded, upload w uuid4 sid uploaded sv = (sv, Err400 "Invalid session")) ∧
     list_files sid sv = Err400 "Invalid session" ∧
     (∀ file_id, remove_file sid file_id sv = (sv, Err400 "Invalid session")) ∧
     clear_files sid sv = (sv, Err400 "Invalid session") ∧
     (∀ new_account,
        set_account sid new_account sv = (sv, Err400 "Invalid session")) ∧
     compile_route uuid4 sid sv = (sv, Err400 "Invalid session")) ∧
  (∀ sess, sessions sv !! sid = Some sess → files sess = [] →
     compile_route uuid4 sid sv = (sv, Err400 "No files staged")).
Proof.
  split.
  - intros Hsid.
    unfold upload, list_files, remove_file, clear_files, set_account, compile_route.
    rewrite Hsid. done.
  - intros sess Hsid Hfiles. unfold compile_route. rewrite Hsid, Hfiles. done.
Qed.

(** ** Staging files *)

Lemma upload_loop_spec w uuid4 uploaded n :
  (upload_loop w uuid4 uploaded n).2
    = n + length (upload_loop w uuid4 uploaded n).1 ∧
  (λ e, (entry_name e, entry_size e)) <$> (upload_loop w uuid4 uploaded n).1
    = (λ f, (filename f, content_size f)) <$> filter accepted uploaded ∧
  entry_id <$> (upload_loop w uuid4 uploaded n).1
    = uuid4 <$> seq n (length (upload_loop w uuid4 uploaded n).1) ∧
  Forall (λ e, entry_path e
               = Path.join (UPLOAD_DIR w)
                   (entry_id e +:+ Py.lower (Path.splitext (entry_name e)).2) ∧
               Py.lower (Path.splitext (entry_name e)).2 ∈ [".csv"; ".xlsx"; ".xls"])
    (upload_loop w uuid4 uploaded n).1.
Proof.
  revert n. induction uploaded as [|f rest IH]; intros n.
  { simpl. split_and!; [lia|done|done|constructor]. }
  cbn [upload_loop].
  destruct (bool_decide (filename f = "")) eqn:Hname.
  { apply bool_decide_eq_true in Hname.
    rewrite filter_cons_False; [apply IH|]. by intros [Hne _]. }
  apply bool_decide_eq_false in Hname.
  destruct (bool_decide (_ ∈ _)) eqn:Hext.
  - apply bool_decide_eq_true in Hext.
    destruct (IH (S n)) as (Hn & Hnames & Hids & Hpaths).
    destruct (upload_loop w uuid4 rest (S n)) as [entries n'].
    rewrite filter_cons_True by done. cbn [fst snd] in *.
    rewrite !fmap_cons, length_cons. cbn [seq]. rewrite fmap_cons.
    split_and!; [lia|by rewrite Hnames|by rewrite Hids|].
    constructor; [done|done].
  - apply bool_decide_eq_false in Hext.
    rewrite filter_cons_False; [apply IH|]. by intros [_ Hin].
Qed.

Lemma upload_eq w uuid4 sid uploaded sv sess :
  sessions sv !! sid = Some sess →
  upload w uuid4 sid uploaded sv
  = ({| sessions :=
          <[sid := Session (files sess ++ (upload_loop w uuid4 uploaded (drawn sv)).1)
                     (account sess)]> (sessions sv);
        jobs := jobs sv;
        uploads := uploads sv
                   ∪ list_to_set
                       (entry_path <$> (upload_loop w uuid4 uploaded (drawn sv)).1);
        drawn := (upload_loop w uuid4 uploaded (drawn sv)).2 |},
     Ok200 (listing <$> (upload_loop w uuid4 uploaded (drawn sv)).1,
            Z.of_nat (length (files sess
                              ++ (upload_loop w uuid4 uploaded (drawn sv)).1)))).
Proof.
  intros Hsid. unfold upload. rewrite Hsid.
  by destruct (upload_loop w uuid4 uploaded (drawn sv)).
Qed.

(** X14. An upload appends to the staged files, in the order of the
    request, one entry for every file that has a name ending in [.csv],
    [.xlsx] or [.xls] in any case, and none for the others; every entry has
    the name and the size of its file and the next identifier drawn.  The
    reply lists the new entries and counts all staged files; the account and
    the entries staged before are kept. *)
Theorem upload_stages_accepted_files (w : World) (uuid4 : nat → string)
    (sid : string) (uploaded : list upload_file) (sv : Server) (sess : session) :
  sessions sv !! sid = Some sess →
  ∃ entries,
    (upload w uuid4 sid uploaded sv).2
      = Ok200 (listing <$> entries,
               Z.of_nat (length (files sess) + length entries)) ∧
    sessions (upload w uuid4 sid uploaded sv).1
      = <[sid := Session (files sess ++ entries) (account sess)]> (sessions sv) ∧
    drawn (upload w uuid4 sid uploaded sv).1 = drawn sv + length entries ∧
    (λ e, (entry_name e, entry_size e)) <$> entries
      = (λ f, (filename f, content_size f)) <$> filter accepted uploaded ∧
    entry_id <$> entries = uuid4 <$> seq (drawn sv) (length entries).
Proof.
  intros Hsid. rewrite (upload_eq _ _ _ _ _ _ Hsid).
  destruct (upload_loop_spec w uuid4 uploaded (drawn sv)) as (Hn & Hnames & Hids & _).
  exists (upload_loop w uuid4 uploaded (drawn sv)).1. cbn [fst snd sessions drawn].
  split_and!; [by rewrite length_app|done..].
Qed.

(** ** The stored path of a staged file *)

Lemma take_str_app s1 s2 : Py.take_str (String.length s1) (s1 +:+ s2) = s1.
Proof.
  induction s1 as [|a s1 IH]; [by destruct s2|].
  rewrite app_String. simpl. by rewrite IH.
Qed.

Lemma join_cases dir name :
  String.prefix "/" name = false →
  ∃ pre, Path.join dir name = pre +:+ name ∧
         (pre = "" ∨ ∃ pre', pre = pre' +:+ "/").
Proof.
  intros Hname. unfold Path.join. rewrite Hname.
  destruct (bool_decide (dir = "")) eqn:Hdir; simpl.
  - apply bool_decide_eq_true in Hdir as ->. exists "". by split; [|left].
  - destruct (bool_decide (Py.last_char dir = Some "/"%char)) eqn:Hlast.
    + apply bool_decide_eq_true, last_char_snoc in Hlast as (dir' & ->).
      eexists. split; [done|]. right. by exists dir'.
    + exists (dir +:+ "/"). split; [by rewrite app_assoc_str|].
      right. by exists dir.
Qed.

Lemma rfind_slash_after_prefix pre s :
  (pre = "" ∨ ∃ pre', pre = pre' +:+ "/") →
  Forall (λ c, c ≠ "/"%char) (Py.chars s) →
  (Py.rfind "/" (pre +:+ s) + 1)%Z = Z.of_nat (String.length pre).
Proof.
  intros [->|[pre' ->]] Hs; unfold Py.rfind.
  - rewrite app_empty, rfind_from_absent by done. done.
  - rewrite app_assoc_str. change ("/" +:+ s) with (String "/" s).
    rewrite rfind_from_last by done.
    rewrite length_app_str. simpl. lia.
Qed.

Lemma splitext_stem_ext pre name e' :
  (pre = "" ∨ ∃ pre', pre = pre' +:+ "/") →
  name ≠ "" →
  Forall (λ c, c ≠ "."%char ∧ c ≠ "/"%char) (Py.chars name) →
  Forall (λ c, c ≠ "."%char ∧ c ≠ "/"%char) (Py.chars e') →
  Path.splitext (pre +:+ name +:+ String "." e') = (pre +:+ name, String "." e') ∧
  Path.basename (pre +:+ name +:+ String "." e') = name +:+ String "." e'.
Proof.
  intros Hpre Hne Hname He'.
  assert (Forall (λ c, c ≠ "/"%char) (Py.chars (name +:+ String "." e'))) as Hslash.
  { rewrite chars_app, Forall_app. split.
    - eapply Forall_impl; [exact Hname|]. by intros c [_ ?].
    - simpl. constructor; [done|].
      eapply Forall_impl; [exact He'|]. by intros c [_ ?]. }
  pose proof (rfind_slash_after_prefix pre _ Hpre Hslash) as Hsep.
  assert (Py.rfind "." (pre +:+ name +:+ String "." e')
          = Z.of_nat (String.length (pre +:+ name))) as Hdot.
  { unfold Py.rfind. rewrite <- app_assoc_str, rfind_from_last; [lia|lia|].
    eapply Forall_impl; [exact He'|]. by intros c [? _]. }
  split.
  - unfold Path.splitext. rewrite Hdot.
    replace (Py.rfind "/" (pre +:+ name +:+ String "." e') <? _)%Z with true.
    2:{ symmetry. apply Z.ltb_lt. rewrite length_app_str. lia. }
    rewrite Hsep, Nat2Z.id, drop_str_app.
    replace (Z.to_nat (Z.of_nat (String.length (pre +:+ name))
                       - Z.of_nat (String.length pre)))
      with (String.length name) by (rewrite length_app_str; lia).
    rewrite take_str_app.
    replace (forallb (Ascii.eqb ".") (Py.chars name)) with false.
    2:{ destruct name as [|a name]; [done|]. simpl in Hname.
        apply Forall_cons in Hname as [[Ha _] _].
        cbn [Py.chars forallb].
        rewrite (proj2 (Ascii.eqb_neq "." a)); [done|]. by intros <-. }
    rewrite Nat2Z.id, <- app_assoc_str.
    by rewrite take_str_app, drop_str_app.
  - unfold Path.basename. rewrite Hsep, Nat2Z.id. apply drop_str_app.
Qed.

(** X15. A staged file is stored in the upload directory under its
    identifier followed by the extension of its name in lower case, which
    is one that [read_file] reads: the stored name, not the name of the
    upload, is what the progress events of a run show. *)
Theorem upload_paths_readable (w : World) (uuid4 : nat → string)
    (uploaded : list upload_file) (n : nat) (e : file_entry) :
  e ∈ (upload_loop w uuid4 uploaded n).1 →
  uuid_like (entry_id e) →
  Py.lower (Path.splitext (entry_path e)).2 ∈ [".csv"; ".xlsx"; ".xls"] ∧
  Path.basename (entry_path e)
  = entry_id e +:+ Py.lower (Path.splitext (entry_name e)).2.
Proof.
  intros He [Hid Hchars].
  destruct (upload_loop_spec w uuid4 uploaded n) as (_ & _ & _ & Hpaths).
  destruct (proj1 (Forall_forall _ _) Hpaths e He) as [Hpath Hext].
  set (ext := Py.lower (Path.splitext (entry_name e)).2) in *.
  assert (∃ e', ext = String "." e' ∧ Py.lower ext = ext ∧
                Forall (λ c, c ≠ "."%char ∧ c ≠ "/"%char) (Py.chars e')) as
    (e' & Hdot & Hlower & He').
  { repeat (apply elem_of_cons in Hext as [->|Hext]);
      [exists "csv"|exists "xlsx"|exists "xls"|by apply elem_of_nil in Hext];
      (split_and!; [done|done|repeat constructor; done]). }
  destruct (join_cases (UPLOAD_DIR w) (entry_id e +:+ ext)) as (pre & Hjoin & Hpre).
  { destruct (entry_id e) as [|a rest]; [done|]. simpl in Hchars.
    apply Forall_cons in Hchars as [[_ Ha] _]. rewrite app_String.
    change (String.prefix "/" (String a (rest +:+ ext)))
      with (if ascii_dec "/" a then String.prefix "" (rest +:+ ext) else false).
    destruct (ascii_dec "/" a); [by subst|done]. }
  rewrite Hpath, Hjoin, Hdot.
  destruct (splitext_stem_ext pre (entry_id e) e' Hpre Hid Hchars He')
    as [-> ->].
  split; [|done]. cbn [snd]. rewrite <- Hdot, Hlower.
  repeat (apply elem_of_cons in Hext as [Hext|Hext]); rewrite ?Hext.
  - left.
  - right. left.
  - right. right. left.
  - by apply elem_of_nil in Hext.
Qed.

(** ** Removing and clearing *)

Lemma remove_file_eq sid file_id sv sess :
  sessions sv !! sid = Some sess →
  remove_file sid file_id sv
  = ({| sessions :=
          <[sid := Session (filter (λ f, Some (entry_id f) ≠ file_id) (files sess))
                     (account sess)]> (sessions sv);
        jobs := jobs sv;
        uploads := uploads sv;
        drawn := drawn sv |},
     Ok200 (Z.of_nat (length (filter (λ f, Some (entry_id f) ≠ file_id) (files sess))),
            (Z.of_nat (length (files sess))
             - Z.of_nat (length (filter (λ f, Some (entry_id f) ≠ file_id)
                                   (files sess))))%Z)).
Proof. intros Hsid. unfold remove_file. by rewrite Hsid. Qed.

Lemma filter_length_complement {A} (P : A → Prop) `{∀ x, Decision (P x)} (l : list A) :
  length (filter P l) + length (filter (λ x, ¬ P x) l) = length l.
Proof. by rewrite <- length_app, filter_app_complement. Qed.

(** X16. Removing a file takes out of the session every entry with the
    given identifier and nothing else, keeps the order of the others, and
    replies with the number left and the number taken out, which add up to
    the number staged before.  The stored files stay in the upload
    directory; with no identifier in the request nothing is removed. *)
Theorem remove_file_removes_by_id (sid : string) (file_id : option string)
    (sv : Server) (sess : session) :
  sessions sv !! sid = Some sess →
  ∃ left_files total removed,
    remove_file sid file_id sv
    = ({| sessions := <[sid := Session left_files (account sess)]> (sessions sv);
          jobs := jobs sv;
          uploads := uploads sv;
          drawn := drawn sv |},
       Ok200 (total, removed)) ∧
    (∀ f, f ∈ left_files ↔ f ∈ files sess ∧ Some (entry_id f) ≠ file_id) ∧
    left_files `sublist_of` files sess ∧
    total = Z.of_nat (length left_files) ∧
    removed = Z.of_nat (length (filter (λ f, Some (entry_id f) = file_id) (files sess))) ∧
    (total + removed = Z.of_nat (length (files sess)))%Z ∧
    (file_id = None → left_files = files sess).
Proof.
  intros Hsid. rewrite (remove_file_eq _ _ _ _ Hsid).
  pose proof (filter_length_complement
                (λ f, Some (entry_id f) = file_id) (files sess)) as Hlen.
  change (λ x : file_entry, ¬ Some (entry_id x) = file_id)
    with (λ x : file_entry, Some (entry_id x) ≠ file_id) in Hlen.
  eexists _, _, _. split; [reflexivity|]. split_and!.
  - intros f. rewrite list_elem_of_filter. tauto.
  - apply sublist_filter.
  - done.
  - lia.
  - lia.
  - intros ->. clear. induction (files sess) as [|f l IH]; [done|].
    rewrite filter_cons_True by done. by rewrite IH.
Qed.

(** X17. Removing the same identifier again removes nothing and leaves the
    store as it is. *)
Theorem remove_file_twice (sid : string) (file_id : option string)
    (sv : Server) (sess : session) :
  sessions sv !! sid = Some sess →
  ∃ total,
    remove_file sid file_id (remove_file sid file_id sv).1
    = ((remove_file sid file_id sv).1, Ok200 (total, 0%Z)).
Proof.
  intros Hsid. rewrite (remove_file_eq _ _ _ _ Hsid). cbn [fst].
  erewrite remove_file_eq; [|cbn [sessions]; apply lookup_insert_eq].
  cbn [sessions jobs uploads drawn files account].
  rewrite insert_insert_eq.
  assert (∀ l : list file_entry,
            filter (λ f, Some (entry_id f) ≠ file_id)
              (filter (λ f, Some (entry_id f) ≠ file_id) l)
            = filter (λ f, Some (entry_id f) ≠ file_id) l) as Hidem.
  { intros l. induction l as [|f l IH]; [done|].
    destruct (decide (Some (entry_id f) ≠ file_id)) as [Hf|Hf].
    - rewrite (filter_cons_True _ f l) by done.
      rewrite filter_cons_True by done. by rewrite IH.
    - by rewrite (filter_cons_False _ f l). }
  rewrite Hidem. eexists. f_equal. f_equal. f_equal. lia.
Qed.

Lemma clear_files_eq sid sv sess :
  sessions sv !! sid = Some sess →
  clear_files sid sv
  = ({| sessions := <[sid := Session [] (account sess)]> (sessions sv);
        jobs := jobs sv;
        uploads := uploads sv ∖ list_to_set (entry_path <$> files sess);
        drawn := drawn sv |},
     Ok200 0%Z).
Proof. intros Hsid. unfold clear_files. by rewrite Hsid. Qed.

(** X18. Clearing a session empties its list of files and keeps its
    account; the stored files of the session are no longer in the upload
    directory and the other files of the directory are; the other sessions
    are as they were. *)
Theorem clear_files_empties (sid : string) (sv : Server) (sess : session) :
  sessions sv !! sid = Some sess →
  (clear_files sid sv).2 = Ok200 0%Z ∧
  list_files sid (clear_files sid sv).1 = Ok200 ([], account sess) ∧
  (∀ p, p ∈ uploads (clear_files sid sv).1
        ↔ p ∈ uploads sv ∧ p ∉ entry_path <$> files sess) ∧
  (∀ other, other ≠ sid →
     sessions (clear_files sid sv).1 !! other = sessions sv !! other).
Proof.
  intros Hsid. rewrite (clear_files_eq _ _ _ Hsid). cbn [fst snd].
  split_and!; [done|..].
  - unfold list_files. cbn [sessions]. by rewrite lookup_insert_eq.
  - intros p. cbn [uploads]. rewrite elem_of_difference, elem_of_list_to_set. done.
  - intros other Hne. cbn [sessions]. by rewrite lookup_insert_ne.
Qed.

(** ** The account and a new session *)

(** X19. The account that is set is the account that is listed, and
    "Account_1" when the request names none; the staged files are not
    touched. *)
Theorem set_account_then_list_files (sid : string) (new_account : option string)
    (sv : Server) (sess : session) :
  sessions sv !! sid = Some sess →
  (set_account sid new_account sv).2 = Ok200 true ∧
  list_files sid (set_account sid new_account sv).1
  = Ok200 (listing <$> files sess, default "Account_1" new_account).
Proof.
  intros Hsid. unfold set_account, list_files. rewrite Hsid. cbn [fst snd sessions].
  by rewrite lookup_insert_eq.
Qed.

(** X20. A new session has the next identifier drawn, no staged file and
    the account "Account_1"; the sessions with other identifiers are as they
    were. *)
Theorem new_session_defaults (uuid4 : nat → string) (sv : Server) :
  (new_session uuid4 sv).2 = Ok200 (uuid4 (drawn sv)) ∧
  list_files (uuid4 (drawn sv)) (new_session uuid4 sv).1 = Ok200 ([], "Account_1") ∧
  drawn (new_session uuid4 sv).1 = S (drawn sv) ∧
  (∀ other, other ≠ uuid4 (drawn sv) →
     sessions (new_session uuid4 sv).1 !! other = sessions sv !! other).
Proof.
  unfold new_session, list_files. cbn [fst snd sessions drawn].
  rewrite lookup_insert_eq. split_and!; [done..|].
  intros other Hne. by rewrite lookup_insert_ne.
Qed.

(** ** From the compile route to the download *)

Lemma compile_route_eq uuid4 sid sv sess :
  sessions sv !! sid = Some sess →
  files sess ≠ [] →
  compile_route uuid4 sid sv
  = ({| sessions := sessions sv;
        jobs := {| progress_queues :=
                     <[uuid4 (drawn sv) := []]> (progress_queues (jobs sv));
                   output_files := output_files (jobs sv) |};
        uploads := uploads sv;
        drawn := S (drawn sv) |},
     Ok200 (uuid4 (drawn sv))).
Proof.
  intros Hsid Hfiles. unfold compile_route. rewrite Hsid.
  by rewrite bool_decide_eq_false_2.
Qed.

Lemma run_eq w sess job sv :
  run w sess job sv
  = ({| sessions := sessions sv;
        jobs := (compile_files w (entry_path <$> files sess) (account sess) job
                   (jobs sv)).1;
        uploads := uploads sv;
        drawn := drawn sv |},
     (compile_files w (entry_path <$> files sess) (account sess) job (jobs sv)).2).
Proof. unfold run. by destruct (compile_files _ _ _ _ _). Qed.

(** X21. The compile route registers the queue that its worker fills: for
    a session with staged files the reply holds the next identifier, and
    when the worker has returned, the queue of that job holds one progress
    event for every staged file, in order, and then one terminal event that
    says what the worker returned.  The sessions and the upload directory
    are as they were. *)
Theorem compile_route_then_run (w : World) (uuid4 : nat → string) (sid : string)
    (sv sv' : Server) (sess : session) (path : option string) (n dupes : Z) :
  sessions sv !! sid = Some sess →
  files sess ≠ [] →
  run w sess (uuid4 (drawn sv)) (compile_route uuid4 sid sv).1
    = (sv', Returned path n dupes) →
  (compile_route uuid4 sid sv).2 = Ok200 (uuid4 (drawn sv)) ∧
  progress_queues (jobs sv') !! uuid4 (drawn sv)
  = Some (progress_events (Z.of_nat (length (files sess))) 1
            (entry_path <$> files sess)
          ++ [match path with
              | Some p => Done n dupes (Path.basename p)
              | None => Error "No readable data found in the selected files."
              end]) ∧
  sessions sv' = sessions sv ∧
  uploads sv' = uploads sv.
Proof.
  intros Hsid Hfiles. rewrite (compile_route_eq _ _ _ _ Hsid Hfiles), run_eq.
  cbn [fst snd jobs sessions uploads].
  destruct (compile_files _ _ _ _ _) as [st result] eqn:Hrun. cbn [fst snd].
  intros [= <- ->]. cbn [jobs sessions uploads]. split_and!; [done| |done|done].
  pose proof (compile_files_returned_queue w _ _ _ _ st [] path n dupes
                (lookup_insert_eq _ _ _) Hrun) as Hq.
  by rewrite length_fmap in Hq.
Qed.

Lemma compile_files_written w paths acct job st st' p n dupes :
  compile_files w paths acct job st = (st', Returned (Some p) n dupes) →
  p = out_path w acct ∧
  ∃ table, output_files st' !! p = Some table ∧ len table = n.
Proof.
  intros (combined & _ & _ & -> & -> & _ & ->)%compile_files_returned.
  split; [done|]. eexists. split; [|done].
  rewrite push_output_files. apply lookup_insert_eq.
Qed.

(** X22. The file name of the terminal event downloads the table of the
    run: when the worker has returned a path, a download of the base name of
    that path gives the table that was written, with the number of rows that
    was returned. *)
Theorem download_after_run (w : World) (sess : session) (job_id : string)
    (sv sv' : Server) (p : string) (n dupes : Z) :
  run w sess job_id sv = (sv', Returned (Some p) n dupes) →
  ∃ table,
    download w (Path.basename p) sv' = Ok200 table ∧
    len table = n ∧
    output_files (jobs sv') !! p = Some table.
Proof.
  rewrite run_eq.
  destruct (compile_files _ _ _ _ _) as [st result] eqn:Hrun. cbn [fst snd].
  intros [= <- ->].
  apply compile_files_written in Hrun as (-> & table & Htable & Hn).
  exists table. split_and!; [|done|done].
  unfold download. cbn [jobs]. rewrite basename_out_path.
  change (Path.join (OUTPUT_DIR w) (safe_name (account sess) +:+ "_compiled.csv"))
    with (out_path w (account sess)).
  by rewrite Htable.
Qed.

(** ** An upload taken back *)

(** X23. A file that is uploaded and then removed by the identifier it was
    given leaves the session as it was, when no staged file has that
    identifier; the reply counts one removal.  The stored copy stays in the
    upload directory. *)
Theorem upload_then_remove_file (w : World) (uuid4 : nat → string) (sid : string)
    (f : upload_file) (sv : Server) (sess : session) :
  sessions sv !! sid = Some sess →
  accepted f →
  uuid4 (drawn sv) ∉ entry_id <$> files sess →
  (remove_file sid (Some (uuid4 (drawn sv))) (upload w uuid4 sid [f] sv).1).2
    = Ok200 (Z.of_nat (length (files sess)), 1%Z) ∧
  sessions (remove_file sid (Some (uuid4 (drawn sv))) (upload w uuid4 sid [f] sv).1).1
    = sessions sv ∧
  Path.join (UPLOAD_DIR w)
      (uuid4 (drawn sv) +:+ Py.lower (Path.splitext (filename f)).2)
    ∈ uploads (remove_file sid (Some (uuid4 (drawn sv)))
                 (upload w uuid4 sid [f] sv).1).1.
Proof.
  intros Hsid [Hname Hext] Hfresh.
  rewrite (upload_eq _ _ _ _ _ _ Hsid).
  assert (upload_loop w uuid4 [f] (drawn sv)
          = ([FileEntry (uuid4 (drawn sv)) (filename f)
                (Path.join (UPLOAD_DIR w)
                   (uuid4 (drawn sv) +:+ Py.lower (Path.splitext (filename f)).2))
                (content_size f)], S (drawn sv))) as ->.
  { cbn [upload_loop]. rewrite bool_decide_eq_false_2 by done.
    by rewrite bool_decide_eq_true_2. }
  cbn [fst snd].
  erewrite remove_file_eq; [|cbn [sessions]; apply lookup_insert_eq].
  cbn [fst snd sessions jobs uploads drawn files account].
  assert (filter (λ e, Some (entry_id e) ≠ Some (uuid4 (drawn sv))) (files sess)
          = files sess) as Hold.
  { clear Hsid. induction (files sess) as [|e l IH]; [done|].
    rewrite fmap_cons in Hfresh. apply not_elem_of_cons in Hfresh as [Hne Hl].
    rewrite filter_cons_True by congruence. by rewrite IH. }
  rewrite filter_app, Hold, filter_cons_False, filter_nil, app_nil_r by (simpl; tauto).
  rewrite length_app. cbn [length]. split_and!.
  - do 3 f_equal. lia.
  - rewrite insert_insert_eq. apply insert_id. by destruct sess.
  - apply elem_of_union_r, elem_of_list_to_set. left.
Qed.

(** ** The added properties on the sheets and on a store *)

Lemma compile_files_counts_witness :
  ((2 + 2 = Z.of_nat (total_rows
                        (frames_of example_world ["uploads/A.csv"; "uploads/B.csv"])))%Z ∧
   (1 ≤ 2)%Z ∧ (0 ≤ 2)%Z).
Proof.
  apply (compile_files_counts example_world ["uploads/A.csv"; "uploads/B.csv"]
           "Account_1" "job" (empty_state "job")
           (compile_files example_world ["uploads/A.csv"; "uploads/B.csv"]
              "Account_1" "job" (empty_state "job")).1
           (out_path example_world "Account_1") 2 2).
  vm_compute. reflexivity.
Defined.

Lemma compile_files_terminal_event_matches_result_witness :
  progress_queues
    (compile_files example_world ["uploads/A.csv"; "uploads/B.csv"]
       "Account_1" "job" (empty_state "job")).1 !! "job"
  = Some ([] ++ progress_events 2 1 ["uploads/A.csv"; "uploads/B.csv"]
             ++ [Done 2 2 (Path.basename (out_path example_world "Account_1"))]).
Proof.
  apply (compile_files_terminal_event_matches_result example_world
           ["uploads/A.csv"; "uploads/B.csv"] "Account_1" "job" (empty_state "job")
           _ [] (Some (out_path example_world "Account_1")) 2 2).
  - vm_compute. reflexivity.
  - vm_compute. reflexivity.
Defined.

Lemma compile_files_latest_wins_witness :
  out_path example_world "A#1" = out_path example_world "A_1" ∧
  ∃ table,
    output_files
      (compile_files example_world ["uploads/B.csv"] "A_1" "job2"
         (compile_files example_world ["uploads/A.csv"] "A#1" "job"
            (empty_state "job")).1).1
    = <[out_path example_world "A_1" := table]> (output_files (empty_state "job")) ∧
    len table = 2%Z.
Proof.
  apply (compile_files_latest_wins example_world ["uploads/A.csv"] ["uploads/B.csv"]
           "A#1" "A_1" "job" "job2" (empty_state "job")
           (compile_files example_world ["uploads/A.csv"] "A#1" "job"
              (empty_state "job")).1
           (compile_files example_world ["uploads/B.csv"] "A_1" "job2"
              (compile_files example_world ["uploads/A.csv"] "A#1" "job"
                 (empty_state "job")).1).1
           (out_path example_world "A#1") (out_path example_world "A_1") 1 1 2 0).
  - vm_compute. reflexivity.
  - vm_compute. reflexivity.
  - vm_compute. reflexivity.
Defined.

Lemma read_file_rectangular_nonempty_witness :
  rect trades_table ∧ rows trades_table ≠ [] ∧ columns trades_table ≠ [].
Proof.
  apply (read_file_rectangular_nonempty trades_world "uploads/t.csv" trades_table).
  vm_compute. reflexivity.
Defined.

Lemma read_file_keeps_present_values_witness :
  filter (λ v, notna v) <$> rows trades_table
  = filter (λ vs, vs ≠ []) (filter (λ v, notna v) <$> drop 3 trades_sheet).
Proof.
  apply (read_file_keeps_present_values trades_world "uploads/t.csv"
           (Frame [Str " Instrument "; Str "Entry Time"; Str "Profit"]
              (drop 3 trades_sheet)) trades_table).
  - vm_compute. reflexivity.
  - vm_compute. reflexivity.
Defined.

Lemma detect_header_row_nonzero_witness :
  ∃ raw row,
    read_raw trades_world "uploads/t.csv" = Some raw ∧
    length (rows raw) ≤ 30 ∧
    rows raw !! Z.to_nat (detect_header_row trades_world "uploads/t.csv") = Some row ∧
    is_header trades_world row ∧
    ∀ j row', j < Z.to_nat (detect_header_row trades_world "uploads/t.csv") →
      rows raw !! j = Some row' → ¬ is_header trades_world row'.
Proof.
  apply (detect_header_row_nonzero trades_world "uploads/t.csv").
  vm_compute. discriminate.
Defined.

Lemma upload_stages_accepted_files_witness :
  ∃ entries,
    (upload trades_world demo_uuid4 "s1" demo_uploads demo_server).2
      = Ok200 (listing <$> entries, Z.of_nat (2 + length entries)) ∧
    sessions (upload trades_world demo_uuid4 "s1" demo_uploads demo_server).1
      = <[ "s1" := Session ([staged_a; staged_b] ++ entries) "Sim101" ]>
          (sessions demo_server) ∧
    drawn (upload trades_world demo_uuid4 "s1" demo_uploads demo_server).1
      = 0 + length entries ∧
    (λ e, (entry_name e, entry_size e)) <$> entries
      = (λ f, (filename f, content_size f)) <$> filter accepted demo_uploads ∧
    entry_id <$> entries = demo_uuid4 <$> seq 0 (length entries).
Proof.
  apply (upload_stages_accepted_files trades_world demo_uuid4 "s1" demo_uploads
           demo_server (Session [staged_a; staged_b] "Sim101")).
  vm_compute. reflexivity.
Defined.

Lemma upload_paths_readable_witness :
  Py.lower (Path.splitext "/srv/app/uploads/id-0.csv").2 ∈ [".csv"; ".xlsx"; ".xls"] ∧
  Path.basename "/srv/app/uploads/id-0.csv"
  = "id-0" +:+ Py.lower (Path.splitext "March.CSV").2.
Proof.
  apply (upload_paths_readable trades_world demo_uuid4 demo_uploads 0
           (FileEntry "id-0" "March.CSV" "/srv/app/uploads/id-0.csv" 10)).
  - apply (list_elem_of_lookup_2 _ 0). vm_compute. reflexivity.
  - split; [discriminate|]. simpl. repeat constructor; discriminate.
Defined.

Lemma remove_file_removes_by_id_witness :
  ∃ left_files total removed,
    remove_file "s1" (Some "id-a") demo_server
    = ({| sessions := <[ "s1" := Session left_files "Sim101" ]> (sessions demo_server);
          jobs := jobs demo_server;
          uploads := uploads demo_server;
          drawn := drawn demo_server |},
       Ok200 (total, removed)) ∧
    (∀ f, f ∈ left_files
          ↔ f ∈ [staged_a; staged_b] ∧ Some (entry_id f) ≠ Some "id-a") ∧
    left_files `sublist_of` [staged_a; staged_b] ∧
    total = Z.of_nat (length left_files) ∧
    removed = Z.of_nat (length (filter (λ f, Some (entry_id f) = Some "id-a")
                                  [staged_a; staged_b])) ∧
    (total + removed = Z.of_nat (length [staged_a; staged_b]))%Z ∧
    (Some "id-a" = None → left_files = [staged_a; staged_b]).
Proof.
  apply (remove_file_removes_by_id "s1" (Some "id-a") demo_server
           (Session [staged_a; staged_b] "Sim101")).
  vm_compute. reflexivity.
Defined.

Lemma remove_file_twice_witness :
  ∃ total,
    remove_file "s1" (Some "id-a") (remove_file "s1" (Some "id-a") demo_server).1
    = ((remove_file "s1" (Some "id-a") demo_server).1, Ok200 (total, 0%Z)).
Proof.
  apply (remove_file_twice "s1" (Some "id-a") demo_server
           (Session [staged_a; staged_b] "Sim101")).
  vm_compute. reflexivity.
Defined.

Lemma clear_files_empties_witness :
  (clear_files "s1" demo_server).2 = Ok200 0%Z ∧
  list_files "s1" (clear_files "s1" demo_server).1 = Ok200 ([], "Sim101") ∧
  (∀ p, p ∈ uploads (clear_files "s1" demo_server).1
        ↔ p ∈ uploads demo_server ∧ p ∉ entry_path <$> [staged_a; staged_b]) ∧
  (∀ other, other ≠ "s1" →
     sessions (clear_files "s1" demo_server).1 !! other
     = sessions demo_server !! other).
Proof.
  apply (clear_files_empties "s1" demo_server (Session [staged_a; staged_b] "Sim101")).
  vm_compute. reflexivity.
Defined.

Lemma set_account_then_list_files_witness :
  (set_account "s1" None demo_server).2 = Ok200 true ∧
  list_files "s1" (set_account "s1" None demo_server).1
  = Ok200 (listing <$> [staged_a; staged_b], "Account_1").
Proof.
  apply (set_account_then_list_files "s1" None demo_server
           (Session [staged_a; staged_b] "Sim101")).
  vm_compute. reflexivity.
Defined.

Lemma compile_route_then_run_witness :
  (compile_route demo_uuid4 "s" trades_server).2 = Ok200 "id-0" ∧
  progress_queues
    (jobs (run trades_world
             (Session [FileEntry "f1" "trades.csv" "uploads/t.csv" 99] "My Account #1")
             "id-0" (compile_route demo_uuid4 "s" trades_server).1).1) !! "id-0"
  = Some (progress_events 1 1 ["uploads/t.csv"]
          ++ [Done 2 1 (Path.basename "/srv/app/output/My Account _1_compiled.csv")]) ∧
  sessions (run trades_world
              (Session [FileEntry "f1" "trades.csv" "uploads/t.csv" 99] "My Account #1")
              "id-0" (compile_route demo_uuid4 "s" trades_server).1).1
  = sessions trades_server ∧
  uploads (run trades_world
             (Session [FileEntry "f1" "trades.csv" "uploads/t.csv" 99] "My Account #1")
             "id-0" (compile_route demo_uuid4 "s" trades_server).1).1
  = uploads trades_server.
Proof.
  apply (compile_route_then_run trades_world demo_uuid4 "s" trades_server _
           (Session [FileEntry "f1" "trades.csv" "uploads/t.csv" 99] "My Account #1")
           (Some "/srv/app/output/My Account _1_compiled.csv") 2 1).
  - vm_compute. reflexivity.
  - discriminate.
  - vm_compute. reflexivity.
Defined.

Lemma download_after_run_witness :
  ∃ table,
    download trades_world
      (Path.basename "/srv/app/output/My Account _1_compiled.csv")
      (run trades_world
         (Session [FileEntry "f1" "trades.csv" "uploads/t.csv" 99] "My Account #1")
         "id-0" (compile_route demo_uuid4 "s" trades_server).1).1
    = Ok200 table ∧
    len table = 2%Z ∧
    output_files
      (jobs (run trades_world
               (Session [FileEntry "f1" "trades.csv" "uploads/t.csv" 99] "My Account #1")
               "id-0" (compile_route demo_uuid4 "s" trades_server).1).1)
      !! "/srv/app/output/My Account _1_compiled.csv" = Some table.
Proof.
  apply (download_after_run trades_world
           (Session [FileEntry "f1" "trades.csv" "uploads/t.csv" 99] "My Account #1")
           "id-0" (compile_route demo_uuid4 "s" trades_server).1 _
           "/srv/app/output/My Account _1_compiled.csv" 2 1).
  vm_compute. reflexivity.
Defined.

Lemma upload_then_remove_file_witness :
  (remove_file "s1" (Some (demo_uuid4 0))
     (upload trades_world demo_uuid4 "s1" [Upload "March.CSV" 10] demo_server).1).2
    = Ok200 (2%Z, 1%Z) ∧
  sessions (remove_file "s1" (Some (demo_uuid4 0))
              (upload trades_world demo_uuid4 "s1" [Upload "March.CSV" 10]
                 demo_server).1).1
    = sessions demo_server ∧
  Path.join (UPLOAD_DIR trades_world)
      (demo_uuid4 0 +:+ Py.lower (Path.splitext "March.CSV").2)
    ∈ uploads (remove_file "s1" (Some (demo_uuid4 0))
                 (upload trades_world demo_uuid4 "s1" [Upload "March.CSV" 10]
                    demo_server).1).1.
Proof.
  apply (upload_then_remove_file trades_world demo_uuid4 "s1"
           (Upload "March.CSV" 10) demo_server
           (Session [staged_a; staged_b] "Sim101")).
  - vm_compute. reflexivity.
  - split; [discriminate|]. apply (list_elem_of_lookup_2 _ 0). vm_compute. reflexivity.
  - intros Hin. vm_compute in Hin.
    repeat (apply elem_of_cons in Hin as [Hin|Hin]; [discriminate|]).
    by apply elem_of_nil in Hin.
Defined.

(** ** What the header test looks at *)

Lemma lower_char_idempotent c : Py.lower_char (Py.lower_char c) = Py.lower_char c.
Proof. by destruct c as [[] [] [] [] [] [] [] []]. Qed.

Lemma isspace_lower_char c : Py.isspace (Py.lower_char c) = Py.isspace c.
Proof. by destruct c as [[] [] [] [] [] [] [] []]. Qed.

Lemma lower_idempotent s : Py.lower (Py.lower s) = Py.lower s.
Proof.
  induction s as [|a s IH]; [done|]. simpl. by rewrite IH, lower_char_idempotent.
Qed.

Lemma lstrip_lower s : Py.lstrip (Py.lower s) = Py.lower (Py.lstrip s).
Proof.
  induction s as [|a s IH]; [done|]. simpl. rewrite isspace_lower_char.
  by destruct (Py.isspace a).
Qed.

Lemma rstrip_lower s : Py.rstrip (Py.lower s) = Py.lower (Py.rstrip s).
Proof.
  induction s as [|a s IH]; [done|]. simpl. rewrite IH, isspace_lower_char.
  destruct (Py.rstrip s); simpl; [by destruct (Py.isspace a)|done].
Qed.

Lemma strip_lower s : Py.strip (Py.lower s) = Py.lower (Py.strip s).
Proof. unfold Py.strip. by rewrite lstrip_lower, rstrip_lower. Qed.

Lemma lower_strip_idempotent s :
  Py.lower (Py.strip (Py.lower (Py.strip s))) = Py.lower (Py.strip s).
Proof.
  rewrite strip_lower, lower_idempotent.
  by rewrite (strip_trimmed_id _ (strip_trimmed s)).
Qed.

(** X24. The header test sees a row through its present cells, written as
    text, trimmed and in lower case: a row is a header row exactly when the
    row of these texts is one, whatever the case, the surrounding white
    space and the missing cells of the row are. *)
Theorem is_header_ignores_case_and_space (w : World) (row : list cell) :
  is_header w row ↔
  is_header w ((λ v, Str (Py.lower (Py.strip (str w v))))
                 <$> filter (λ v, notna v) row).
Proof.
  rewrite !is_header_iff. split.
  - intros (v & Hv & Hna & Hkw).
    exists (Str (Py.lower (Py.strip (str w v)))). split_and!; [|exact I|].
    + apply list_elem_of_fmap. exists v. split; [reflexivity|].
      apply list_elem_of_filter. split; assumption.
    + cbn [str]. rewrite lower_strip_idempotent. exact Hkw.
  - intros (v' & Hv' & _ & Hkw).
    apply list_elem_of_fmap in Hv' as (v & -> & Hv).
    apply list_elem_of_filter in Hv as [Hna Hv].
    exists v. split_and!; [assumption|assumption|].
    cbn [str] in Hkw. rewrite lower_strip_idempotent in Hkw. exact Hkw.
Qed.
